(** * BEAST [make_ast_inputs]: the orchestration of artificial-star-test inputs

    A shallow embedding of [beast/tools/run/make_ast_inputs.py].  The three
    commented sections of [make_ast_inputs] (magnitude cuts, SED selection,
    position assignment) are three stage definitions, sequenced as the
    source sequences them.  Calls into collaborators whose code lives
    elsewhere (catalog loader, samplers, table reader, the file system) are
    nodes of a small free monad; a run against an arbitrary environment
    yields the list of calls made together with their replies. *)

From Stdlib Require Import PrimFloat ZArith Ascii String Lia.
From stdpp Require Import base option list strings gmap.
From Equations Require Import Equations.

#[local] Arguments String.append !_ _ / : simpl nomatch.
#[local] Arguments Ascii.eqb : simpl never.

(** ** Python strings *)

Module PyStr.

(** [s[n:]] *)
Fixpoint drop (n : nat) (s : string) : string :=
  match n, s with
  | O, _ => s
  | S _, EmptyString => EmptyString
  | S n', String _ r => drop n' r
  end.

Lemma drop_length_le n s : String.length (drop n s) <= String.length s.
Proof.
  revert s; induction n as [|n IH]; intros [|c r]; simpl; try lia.
  specialize (IH r); lia.
Qed.

(** [s.startswith(old)] *)
Fixpoint startswith (old s : string) : bool :=
  match old, s with
  | EmptyString, _ => true
  | String _ _, EmptyString => false
  | String a old', String b s' => Ascii.eqb a b && startswith old' s'
  end.

(** [new.join(s)] bracketed by [new]: what [str.replace] does when the
    searched text is empty. *)
Fixpoint interleave (new s : string) : string :=
  match s with
  | EmptyString => new
  | String c r => new +:+ String c (interleave new r)
  end.

(** [s.replace(old, new)] for a non-empty [old]: scan left to right, at
    each position either consume one occurrence of [old] and emit [new],
    or copy one character. *)
Equations? replace_scan (old new s : string) : string
  by wf (String.length s) lt :=
  replace_scan old new EmptyString := EmptyString;
  replace_scan old new (String c r) :=
    if startswith old (String c r)
    then new +:+ replace_scan old new (drop (Nat.pred (String.length old)) r)
    else String c (replace_scan old new r).
Proof.
  pose proof (drop_length_le (Nat.pred (String.length old)) r). simpl. lia.
Qed.

(** [str.replace(old, new)] *)
Definition replace (old new s : string) : string :=
  match old with
  | EmptyString => interleave new s
  | String _ _ => replace_scan old new s
  end.

(** [old in s] *)
Fixpoint occurs (old s : string) : bool :=
  startswith old s ||
  match s with
  | EmptyString => false
  | String _ r => occurs old r
  end.

End PyStr.

(** Occurrences of [old] that start inside [p] when [p] is followed by
    [rest]. *)
Fixpoint starts_within (old p rest : string) : bool :=
  match p with
  | EmptyString => false
  | String c p' => PyStr.startswith old (String c p' +:+ rest) || starts_within old p' rest
  end.

(** ** Exceptions and results *)

Inductive exn : Type :=
| KeyError (key : string)
| IndexError
| ValueError
| UnboundLocalError (name : string)
| CollaboratorError (msg : string).

(** A computation that returns or raises. *)
Definition result (A : Type) : Type := exn + A.

Definition ok {A} (a : A) : result A := inr a.
Definition raise {A} (e : exn) : result A := inl e.

Definition rbind {A B} (r : result A) (k : A -> result B) : result B :=
  match r with
  | inl e => inl e
  | inr a => k a
  end.

Declare Scope result_scope.
Delimit Scope result_scope with result.
Notation "'let*' x ':=' r 'in' k" := (rbind r (fun x => k))
  (at level 10, x name, r at level 100, k at level 200) : result_scope.

(** Left-to-right evaluation of [f] over a list, stopping at the first
    exception. *)
Fixpoint rmapM {A B} (f : A -> result B) (l : list A) : result (list B) :=
  match l with
  | [] => ok []
  | a :: l' => (let* b := f a in let* bs := rmapM f l' in ok (b :: bs))%result
  end.

(** ** NumPy on one-dimensional [float64] arrays *)

Abbreviation float := PrimFloat.float.

(** [np.percentile] is not part of the repository: the development is
    parametric in it.  It may return a number (possibly NaN) or raise. *)
Class NumPy : Type := { np_percentile : list float -> float -> result float }.

(** [np.zeros(n)] *)
Definition np_zeros (n : nat) : list float := replicate n 0%float.

(** [a < x], elementwise *)
Definition np_less (a : list float) (x : float) : list bool :=
  map (fun m => PrimFloat.ltb m x) a.

(** [np.where(mask)[0]]: the indices at which [mask] holds *)
Fixpoint np_where_from (i : nat) (mask : list bool) : list nat :=
  match mask with
  | [] => []
  | b :: mask' =>
      if b then i :: np_where_from (S i) mask' else np_where_from (S i) mask'
  end.
Definition np_where (mask : list bool) : list nat := np_where_from 0 mask.

(** [a + b] with broadcasting of a length-one operand *)
Definition np_add (a b : list float) : result (list float) :=
  match b with
  | [y] => ok (map (fun x => PrimFloat.add x y) a)
  | _ =>
      match a with
      | [x] => ok (map (fun y => PrimFloat.add x y) b)
      | _ => if Nat.eqb (length a) (length b)
             then ok (zip_with PrimFloat.add a b)
             else raise ValueError
      end
  end.

(** [a[k] = v] *)
Definition np_setitem (a : list float) (k : nat) (v : float) : result (list float) :=
  if Nat.ltb k (length a) then ok (<[k := v]> a) else raise IndexError.

(** [enumerate(l, start)] *)
Fixpoint enumerate_from {A} (start : nat) (l : list A) : list (nat * A) :=
  match l with
  | [] => []
  | a :: l' => (start, a) :: enumerate_from (S start) l'
  end.
Definition enumerate {A} (l : list A) : list (nat * A) := enumerate_from 0 l.

(** ** The observation catalog *)

(** Modelled from the spec: the class of the object returned by
    [datamodel.get_obscat] is defined outside [make_ast_inputs.py].  Per the
    data model it is a table with one row per source, per-filter magnitude
    columns, the filter list it was loaded for, and an alias-resolution
    capability from filter names to column names. *)
Record Observations : Type := {
  obs_filters : list string;          (* [obsdata.filters] *)
  resolve_alias : string -> string;   (* [obsdata.data.resolve_alias] *)
  obs_colnames : list string;
  obs_rows : list (list float)        (* one value per column in each row *)
}.

(** The position of a column name. *)
Fixpoint colindex (name : string) (colnames : list string) : option nat :=
  match colnames with
  | [] => None
  | n :: colnames' =>
      if String.eqb name n then Some 0 else S <$> colindex name colnames'
  end.

(** [obsdata[name]]: a column *)
Definition obs_getitem (obsdata : Observations) (name : string) : result (list float) :=
  match colindex name (obs_colnames obsdata) with
  | Some i => ok (map (fun row => nth i row PrimFloat.nan) (obs_rows obsdata))
  | None => raise (KeyError name)
  end.

Fixpoint take_rows {A} (rows : list A) (keep : list nat) : result (list A) :=
  match keep with
  | [] => ok []
  | i :: keep' =>
      match rows !! i with
      | None => raise IndexError
      | Some row => (let* rest := take_rows rows keep' in ok (row :: rest))%result
      end
  end.

(** [obsdata[keep]]: the sub-table of the rows at the indices [keep] *)
Definition obs_getrows (obsdata : Observations) (keep : list nat) : result Observations :=
  (let* rows := take_rows (obs_rows obsdata) keep in
   ok {| obs_filters := obs_filters obsdata;
         resolve_alias := resolve_alias obsdata;
         obs_colnames := obs_colnames obsdata;
         obs_rows := rows |})%result.

(** ** Configuration: the [datamodel] module *)

Record datamodel : Type := {
  project : string;
  filters : list string;
  obsfile : string;
  ast_maglimit : list float;
  ast_realization_per_model : Z;
  ast_bands_above_maglimit : Z;
  ast_n_flux_bins : Z;
  ast_n_per_flux_bin : Z;
  ast_models_selected_per_age : Z;
  ast_with_positions : bool;
  ast_source_density_table : option string;
  ast_background_table : option string;
  ast_N_bins : option Z;
  ast_reference_image : option string;
  ast_coord_boundary : option (list float * list float);
  ast_pixel_distribution : float
}.

(** ** Stage 1: construct magnitude cuts (lines 48-62) *)

(** Lines 55-57: the catalog column holding the magnitudes of a filter. *)
Definition sfiltername (obsdata : Observations) (filtername : string) : string :=
  let sfiltername := resolve_alias obsdata filtername in
  let sfiltername := PyStr.replace "rate" "vega" sfiltername in
  let sfiltername := PyStr.replace "RATE" "VEGA" sfiltername in
  sfiltername.

(** Lines 54-59: the loop body, over the remaining [(k, filtername)] pairs. *)
Fixpoint min_mags_loop `{NumPy} (obsdata : Observations)
    (items : list (nat * string)) (min_mags : list float) : result (list float) :=
  match items with
  | [] => ok min_mags
  | (k, filtername) :: items' =>
      let sfiltername := sfiltername obsdata filtername in
      (let* col := obs_getitem obsdata sfiltername in
       let keep := np_where (np_less col 99.0%float) in
       let* kept := obs_getrows obsdata keep in
       let* mags := obs_getitem kept sfiltername in
       let* p := np_percentile mags 90.0%float in
       let* min_mags' := np_setitem min_mags k p in
       min_mags_loop obsdata items' min_mags')%result
  end.

Definition construct_magnitude_cuts `{NumPy} (dm : datamodel)
    (obsdata : Observations) : result (list float) :=
  let mag_cuts := ast_maglimit dm in
  if Nat.eqb (length mag_cuts) 1 then
    let tmp_cuts := mag_cuts in
    let min_mags := np_zeros (length (filters dm)) in
    (let* min_mags :=
       min_mags_loop obsdata (enumerate (obs_filters obsdata)) min_mags in
     np_add min_mags tmp_cuts)%result
  else ok mag_cuts.

(** The valid detections of a filter: the magnitudes below the sentinel
    99.0 in the filter's catalog column (none when the column is missing). *)
Definition valid (m : float) : bool := PrimFloat.ltb m 99.0%float.

Definition valid_mags (obsdata : Observations) (filtername : string) : list float :=
  match obs_getitem obsdata (sfiltername obsdata filtername) with
  | inr col => List.filter valid col
  | inl _ => []
  end.

(** [percentile90(valid_mags(filter))] as the resolver computes it. *)
Definition percentile90 `{NumPy} (obsdata : Observations) (filtername : string)
  : result float :=
  np_percentile (valid_mags obsdata filtername) 90.0%float.

(** ** Collaborators and the orchestration monad *)

(** An [astropy] table, as far as the orchestration is concerned: it is
    produced by a sampler or read from disk and handed on untouched. *)
Record Table : Type := {
  table_colnames : list string;
  table_rows : list (list float)
}.

(** Arguments of the call at lines 87-97. *)
Record toothpick_call : Type := {
  tp_modelsedgrid_filename : string;
  tp_filters : list string;
  tp_mag_cuts : list float;
  tp_Nfilter : Z;
  tp_N_fluxes : Z;
  tp_min_N_per_flux : Z;
  tp_outfile : string;
  tp_outfile_params : string;
  tp_bins_outfile : string
}.

(** Arguments of the call at lines 103-112. *)
Record pick_models_call : Type := {
  pm_modelsedgrid_filename : string;
  pm_filters : list string;
  pm_mag_cuts : list float;
  pm_Nfilter : Z;
  pm_N_stars : Z;
  pm_Nrealize : Z;
  pm_outfile : string;
  pm_outfile_params : string
}.

(** Arguments of the calls at lines 134-147 and 151-163: five positional
    arguments, then keywords ([region_from_filters] is [None] when the
    call does not pass it). *)
Record map_call : Type := {
  map_catalog : Observations;
  map_chosen_seds : Table;
  map_table : string;
  map_N_bins : option Z;
  map_realization_per_model : Z;
  map_outfile : string;
  map_refimage : option string;
  map_refimage_hdu : Z;
  map_wcs_origin : Z;
  map_Nrealize : Z;
  map_set_coord_boundary : option (list float * list float);
  map_region_from_filters : option string
}.

(** Arguments of the call at lines 168-173: three positional arguments and
    the keyword [refimage]. *)
Record xy_call : Type := {
  xy_catalog : Observations;
  xy_outfile : string;
  xy_pixel_distribution : float;
  xy_refimage : option string
}.

(** The calls [make_ast_inputs] makes outside its own file, indexed by the
    type of what they return. *)
Inductive call : Type -> Type :=
| verify_input_format (dm : datamodel) : call unit
| get_obscat (obsfile : string) (filters : list string) : call Observations
| os_path_isfile (path : string) : call bool
| pick_models_toothpick_style (args : toothpick_call) : call Table
| pick_models (args : pick_models_call) : call Table
| Table_read (path : string) (format : string) : call Table
| pick_positions_from_map (args : map_call) : call unit
| pick_positions (args : xy_call) : call unit.

(** Orchestration code: return, raise, print a line, or call a collaborator
    and continue with its answer. *)
Inductive prog (R : Type) : Type :=
| Ret (r : R)
| Raise (e : exn)
| Say (line : string) (k : prog R)
| Vis (X : Type) (c : call X) (k : X -> prog R).
Arguments Ret {R} r.
Arguments Raise {R} e.
Arguments Say {R} line k.
Arguments Vis {R X} c k.

Fixpoint bind {A B} (p : prog A) (f : A -> prog B) : prog B :=
  match p with
  | Ret a => f a
  | Raise e => Raise e
  | Say line k => Say line (bind k f)
  | Vis c k => Vis c (fun x => bind (k x) f)
  end.

Definition invoke {X} (c : call X) : prog X := Vis c Ret.

Definition lift {A} (r : result A) : prog A :=
  match r with
  | inl e => Raise e
  | inr a => Ret a
  end.

(** Reading a local variable: [UnboundLocalError] when no assignment to it
    has been executed. *)
Definition local {A} (name : string) (binding : option A) : prog A :=
  match binding with
  | Some a => Ret a
  | None => Raise (UnboundLocalError name)
  end.

Declare Scope prog_scope.
Delimit Scope prog_scope with prog.
Notation "'let*' x ':=' p 'in' k" := (bind p (fun x => k))
  (at level 10, x name, p at level 100, k at level 200) : prog_scope.
Notation "'print' line ';;' k" := (Say line k)
  (at level 10, line at level 9, k at level 200) : prog_scope.

(** ** Runs *)

(** What a run leaves in its log: a printed line, or a call with the value
    it returned or the exception it raised. *)
Inductive entry : Type :=
| Printed (line : string)
| Called (X : Type) (c : call X) (reply : result X).
Arguments Called {X} c reply.

(** The environment: given its state, each collaborator returns or raises,
    and moves to a new state. *)
Definition handler (W : Type) : Type := forall X, call X -> W -> result X * W.

Record run (R W : Type) : Type := {
  trace : list entry;
  outcome : result R;
  world : W
}.
Arguments trace {R W} r.
Arguments outcome {R W} r.
Arguments world {R W} r.

Fixpoint exec {R W} (h : handler W) (p : prog R) (w : W) : run R W :=
  match p with
  | Ret r => {| trace := []; outcome := ok r; world := w |}
  | Raise e => {| trace := []; outcome := raise e; world := w |}
  | Say line k =>
      let r := exec h k w in
      {| trace := Printed line :: trace r; outcome := outcome r; world := world r |}
  | Vis c k =>
      match h _ c w with
      | (inl e, w') =>
          {| trace := [Called c (inl e)]; outcome := raise e; world := w' |}
      | (inr x, w') =>
          let r := exec h (k x) w' in
          {| trace := Called c (inr x) :: trace r;
             outcome := outcome r; world := world r |}
      end
  end.

(** ** Stage 2: select SEDs (lines 68-117) *)

Section Paths.
Variable dm : datamodel.

Definition outfile_seds : string :=
  "./" +:+ project dm +:+ "/" +:+ project dm +:+ "_inputAST_seds.txt".
Definition outfile_params : string :=
  "./" +:+ project dm +:+ "/" +:+ project dm +:+ "_ASTparams.fits".
Definition bins_outfile : string :=
  "./" +:+ project dm +:+ "/" +:+ project dm +:+ "_ASTfluxbins.txt".
Definition sedgrid_path : string :=
  "./" +:+ project dm +:+ "/" +:+ project dm +:+ "_seds.grid.hd5".
Definition outfile : string :=
  "./" +:+ project dm +:+ "/" +:+ project dm +:+ "_inputAST.txt".
End Paths.

Definition select_SEDs (flux_bin_method : bool) (dm : datamodel)
    (mag_cuts : list float) : prog Table :=
  let Nrealize := ast_realization_per_model dm in
  let Nfilters := ast_bands_above_maglimit dm in
  let outfile_seds := outfile_seds dm in
  let outfile_params := outfile_params dm in
  (let* isfile := invoke (os_path_isfile outfile_seds) in
   if negb isfile then
     print "Selecting SEDs for ASTs" ;;
     if flux_bin_method then
       let N_fluxes := ast_n_flux_bins dm in
       let min_N_per_flux := ast_n_per_flux_bin dm in
       let bins_outfile := bins_outfile dm in
       (* line 85, the only assignment to this local *)
       let modelsedgrid_filename := Some (sedgrid_path dm) in
       let* sedgrid := local "modelsedgrid_filename" modelsedgrid_filename in
       invoke (pick_models_toothpick_style
                 {| tp_modelsedgrid_filename := sedgrid;
                    tp_filters := filters dm;
                    tp_mag_cuts := mag_cuts;
                    tp_Nfilter := Nfilters;
                    tp_N_fluxes := N_fluxes;
                    tp_min_N_per_flux := min_N_per_flux;
                    tp_outfile := outfile_seds;
                    tp_outfile_params := outfile_params;
                    tp_bins_outfile := bins_outfile |})
     else
       let N_models := ast_models_selected_per_age dm in
       (* no assignment to this local has run on this path *)
       let modelsedgrid_filename : option string := None in
       let* sedgrid := local "modelsedgrid_filename" modelsedgrid_filename in
       invoke (pick_models
                 {| pm_modelsedgrid_filename := sedgrid;
                    pm_filters := filters dm;
                    pm_mag_cuts := mag_cuts;
                    pm_Nfilter := Nfilters;
                    pm_N_stars := N_models;
                    pm_Nrealize := Nrealize;
                    pm_outfile := outfile_seds;
                    pm_outfile_params := outfile_params |})
   else
     print "Reading existing AST SEDs" ;;
     invoke (Table_read outfile_seds "ascii"))%prog.

(** ** Stage 3: assign positions (lines 125-173) *)

Definition assign_positions (dm : datamodel) (obsdata : Observations)
    (chosen_seds : Table) : prog unit :=
  if ast_with_positions dm then
    (print "Assigning positions to artifical stars" ;;
     let outfile := outfile dm in
     match ast_source_density_table dm with
     | Some source_density_table =>
         invoke (pick_positions_from_map
                   {| map_catalog := obsdata;
                      map_chosen_seds := chosen_seds;
                      map_table := source_density_table;
                      map_N_bins := ast_N_bins dm;
                      map_realization_per_model := ast_realization_per_model dm;
                      map_outfile := outfile;
                      map_refimage := ast_reference_image dm;
                      map_refimage_hdu := 1;
                      map_wcs_origin := 1;
                      map_Nrealize := 1;
                      map_set_coord_boundary := ast_coord_boundary dm;
                      map_region_from_filters := Some "all" |})
     | None =>
         match ast_background_table dm with
         | Some background_table =>
             invoke (pick_positions_from_map
                       {| map_catalog := obsdata;
                          map_chosen_seds := chosen_seds;
                          map_table := background_table;
                          map_N_bins := ast_N_bins dm;
                          map_realization_per_model := ast_realization_per_model dm;
                          map_outfile := outfile;
                          map_refimage := ast_reference_image dm;
                          map_refimage_hdu := 1;
                          map_wcs_origin := 1;
                          map_Nrealize := 1;
                          map_set_coord_boundary := ast_coord_boundary dm;
                          map_region_from_filters := None |})
         | None =>
             invoke (pick_positions
                       {| xy_catalog := obsdata;
                          xy_outfile := outfile;
                          xy_pixel_distribution := ast_pixel_distribution dm;
                          xy_refimage := ast_reference_image dm |})
         end
     end)%prog
  else Ret tt.

(** ** [make_ast_inputs] *)

(** [dm] is the [datamodel] module as [importlib.reload] (line 42) has just
    loaded it. *)
Definition make_ast_inputs `{NumPy} (flux_bin_method : bool) (dm : datamodel)
  : prog unit :=
  (let* _ := invoke (verify_input_format dm) in
   let* obsdata := invoke (get_obscat (obsfile dm) (filters dm)) in
   let* mag_cuts := lift (construct_magnitude_cuts dm obsdata) in
   let* chosen_seds := select_SEDs flux_bin_method dm mag_cuts in
   assign_positions dm obsdata chosen_seds)%prog.

(** ** A reference environment

    Concrete collaborators against which the pipeline can be run: a file
    system holding tables, samplers that write the files they are told to
    write, and a percentile routine. *)

Module Env.

Fixpoint insert_sorted (x : float) (l : list float) : list float :=
  match l with
  | [] => [x]
  | y :: l' => if PrimFloat.leb x y then x :: l else y :: insert_sorted x l'
  end.

Definition sort (l : list float) : list float := foldr insert_sorted [] l.

Fixpoint float_of_nat (n : nat) : float :=
  match n with
  | O => 0%float
  | S n' => PrimFloat.add (float_of_nat n') 1%float
  end.

(** The largest [k <= bound] with [k <= x]. *)
Fixpoint floor_upto (bound : nat) (x : float) : nat :=
  match bound with
  | O => O
  | S b => if PrimFloat.leb (float_of_nat (S b)) x then S b else floor_upto b x
  end.

(** NumPy's [_lerp]: the value a fraction [t] of the way from [a] to [b],
    computed from [b] when [t >= 0.5]. *)
Definition lerp (a b t : float) : float :=
  if PrimFloat.leb 0.5%float t
  then PrimFloat.sub b (PrimFloat.mul (PrimFloat.sub b a) (PrimFloat.sub 1%float t))
  else PrimFloat.add a (PrimFloat.mul (PrimFloat.sub b a) t).

(** The [q]-th percentile of the non-empty sample [x0 :: rest], by the
    default (linear) method: the sample is sorted, and the two order
    statistics around the rank [(n - 1) * (q / 100)] are combined by
    [lerp]. *)
Definition linear_percentile (x0 : float) (rest : list float) (q : float) : float :=
  let sorted := sort (x0 :: rest) in
  let n := length sorted in
  let pos := PrimFloat.mul (float_of_nat (n - 1)) (PrimFloat.div q 100%float) in
  let lo := floor_upto (n - 1) pos in
  let frac := PrimFloat.sub pos (float_of_nat lo) in
  let a_lo := nth lo sorted x0 in
  let a_hi := nth (Nat.min (S lo) (n - 1)) sorted x0 in
  lerp a_lo a_hi frac.

(** [np.percentile(a, q)] on a one-dimensional sample: [IndexError] when
    the sample is empty. *)
Definition percentile (a : list float) (q : float) : result float :=
  match a with
  | [] => raise IndexError
  | x0 :: rest => ok (linear_percentile x0 rest q)
  end.

#[export] Instance numpy : NumPy := {| np_percentile := percentile |}.

(** The file system: the tables stored under each existing path. *)
Abbreviation World := (gmap string Table).

Definition no_table : Table := {| table_colnames := []; table_rows := [] |}.

(** The collaborators: [cat] is the catalog on disk, [sampled] what either
    sampler selects. *)
Definition collaborators (cat : Observations) (sampled : Table) : handler World :=
  fun X c =>
    match c in call X return World -> result X * World with
    | verify_input_format _ => fun w => (ok tt, w)
    | get_obscat _ fs =>
        fun w => (ok {| obs_filters := fs;
                        resolve_alias := resolve_alias cat;
                        obs_colnames := obs_colnames cat;
                        obs_rows := obs_rows cat |}, w)
    | os_path_isfile path => fun w => (ok (bool_decide (is_Some (w !! path))), w)
    | pick_models_toothpick_style a =>
        fun w => (ok sampled,
                  <[tp_bins_outfile a := no_table]>
                    (<[tp_outfile_params a := sampled]>
                       (<[tp_outfile a := sampled]> w)))
    | pick_models a =>
        fun w => (ok sampled,
                  <[pm_outfile_params a := sampled]> (<[pm_outfile a := sampled]> w))
    | Table_read path _ =>
        fun w => match w !! path with
                 | Some t => (ok t, w)
                 | None => (raise (CollaboratorError "FileNotFoundError"), w)
                 end
    | pick_positions_from_map a =>
        fun w => (ok tt, <[map_outfile a := map_chosen_seds a]> w)
    | pick_positions a => fun w => (ok tt, <[xy_outfile a := no_table]> w)
    end.

(** A catalog with the given magnitude columns; aliases map a filter
    name to itself. *)
Definition catalog (cols : list (string * list float)) : Observations :=
  let nrows := foldr Nat.max 0 (map (fun c => length (snd c)) cols) in
  {| obs_filters := [];
     resolve_alias := fun name => name;
     obs_colnames := map fst cols;
     obs_rows :=
       map (fun i => map (fun c => nth i (snd c) 99.0%float) cols) (seq 0 nrows) |}.

Definition config (filters : list string) (maglimit : list float)
    (with_positions : bool) (sd bg : option string) : datamodel :=
  {| project := "demo";
     filters := filters;
     obsfile := "demo.gst.fits";
     ast_maglimit := maglimit;
     ast_realization_per_model := 20;
     ast_bands_above_maglimit := 3;
     ast_n_flux_bins := 40;
     ast_n_per_flux_bin := 50;
     ast_models_selected_per_age := 70;
     ast_with_positions := with_positions;
     ast_source_density_table := sd;
     ast_background_table := bg;
     ast_N_bins := Some 4%Z;
     ast_reference_image := Some "demo_ref.fits";
     ast_coord_boundary := None;
     ast_pixel_distribution := 10.0%float |}.

Definition seds : Table :=
  {| table_colnames := ["F475W"; "F814W"];
     table_rows := [[1.5%float; 2.5%float]; [3.5%float; 4.5%float]] |}.

End Env.


(** ** Reading a log *)

(** The file-existence checks that returned, with their answers. *)
Fixpoint isfile_replies (t : list entry) : list (string * bool) :=
  match t with
  | Called (os_path_isfile path) (inr b) :: t' => (path, b) :: isfile_replies t'
  | _ :: t' => isfile_replies t'
  | [] => []
  end.

(** The paths whose existence was checked. *)
Fixpoint isfile_checks (t : list entry) : list string :=
  match t with
  | Called (os_path_isfile path) _ :: t' => path :: isfile_checks t'
  | _ :: t' => isfile_checks t'
  | [] => []
  end.

(** Invocations of the flux-bin stratified sampler. *)
Fixpoint toothpick_calls (t : list entry) : list toothpick_call :=
  match t with
  | Called (pick_models_toothpick_style a) _ :: t' => a :: toothpick_calls t'
  | _ :: t' => toothpick_calls t'
  | [] => []
  end.

(** Invocations of the random-model sampler. *)
Fixpoint pick_models_calls (t : list entry) : list pick_models_call :=
  match t with
  | Called (pick_models a) _ :: t' => a :: pick_models_calls t'
  | _ :: t' => pick_models_calls t'
  | [] => []
  end.

(** Table reads: path, format, and what the read returned or raised. *)
Fixpoint table_reads (t : list entry) : list (string * string * result Table) :=
  match t with
  | Called (Table_read path format) reply :: t' =>
      (path, format, reply) :: table_reads t'
  | _ :: t' => table_reads t'
  | [] => []
  end.

(** Invocations of the map-based position sampler. *)
Fixpoint map_calls (t : list entry) : list map_call :=
  match t with
  | Called (pick_positions_from_map a) _ :: t' => a :: map_calls t'
  | _ :: t' => map_calls t'
  | [] => []
  end.

(** Invocations of the catalog-based position sampler. *)
Fixpoint xy_calls (t : list entry) : list xy_call :=
  match t with
  | Called (pick_positions a) _ :: t' => a :: xy_calls t'
  | _ :: t' => xy_calls t'
  | [] => []
  end.

(** What the map-based position sampler answered. *)
Fixpoint map_replies (t : list entry) : list (result unit) :=
  match t with
  | Called (pick_positions_from_map _) reply :: t' => reply :: map_replies t'
  | _ :: t' => map_replies t'
  | [] => []
  end.

(** The lines printed. *)
Fixpoint printed (t : list entry) : list string :=
  match t with
  | Printed line :: t' => line :: printed t'
  | _ :: t' => printed t'
  | [] => []
  end.

(** ** Further readers of a log *)

(** The Python name of a collaborator. *)
Definition call_name {X} (c : call X) : string :=
  match c with
  | verify_input_format _ => "verify_params.verify_input_format"
  | get_obscat _ _ => "datamodel.get_obscat"
  | os_path_isfile _ => "os.path.isfile"
  | pick_models_toothpick_style _ => "pick_models_toothpick_style"
  | pick_models _ => "pick_models"
  | Table_read _ _ => "Table.read"
  | pick_positions_from_map _ => "make_ast_xy_list.pick_positions_from_map"
  | pick_positions _ => "make_ast_xy_list.pick_positions"
  end.

(** The collaborators called, in order. *)
Fixpoint call_names (t : list entry) : list string :=
  match t with
  | Called c _ :: t' => call_name c :: call_names t'
  | _ :: t' => call_names t'
  | [] => []
  end.

(** The exceptions collaborators raised, in order. *)
Fixpoint raised (t : list entry) : list exn :=
  match t with
  | Called _ (inl e) :: t' => e :: raised t'
  | _ :: t' => raised t'
  | [] => []
  end.

(** The catalogs the loader returned. *)
Fixpoint loaded_catalogs (t : list entry) : list Observations :=
  match t with
  | Called (get_obscat _ _) (inr obsdata) :: t' => obsdata :: loaded_catalogs t'
  | _ :: t' => loaded_catalogs t'
  | [] => []
  end.

(** The tables stage 2 obtained: returned by a sampler or read from disk. *)
Fixpoint chosen_sets (t : list entry) : list Table :=
  match t with
  | Called (pick_models_toothpick_style _) (inr seds) :: t' => seds :: chosen_sets t'
  | Called (pick_models _) (inr seds) :: t' => seds :: chosen_sets t'
  | Called (Table_read _ _) (inr seds) :: t' => seds :: chosen_sets t'
  | _ :: t' => chosen_sets t'
  | [] => []
  end.

(** The exception the last entry of the log records, if it is a call that
    raised. *)
Definition last_raised (t : list entry) : option exn :=
  match last t with
  | Some (Called _ (inl e)) => Some e
  | _ => None
  end.

(** Every character of [u] differs from both [x] and [y]. *)
Fixpoint avoids (x y : ascii) (u : string) : bool :=
  match u with
  | EmptyString => true
  | String c u' => negb (Ascii.eqb c x) && negb (Ascii.eqb c y) && avoids x y u'
  end.

(** ** The command line (lines 176-192) *)

(** The namespace [parser.parse_args()] returns: the parser declares the
    one argument [--flux_bin_method], of type [int]. *)
Record Namespace : Type := { args_flux_bin_method : Z }.

(** The value [argparse] stores: the integer given on the command line, or
    the declared [default=1] when the flag is absent. *)
Definition parse_args (given : option Z) : Namespace :=
  {| args_flux_bin_method := default 1%Z given |}.

(** [bool(n)] of an [int] *)
Definition py_bool (n : Z) : bool := negb (Z.eqb n 0).

(** [any(values)] over [int]s *)
Definition py_any (values : list Z) : bool := existsb py_bool values.

(** [vars(args).values()] *)
Definition vars_values (args : Namespace) : list Z := [args_flux_bin_method args].

(** Lines 186-192; [help] is the text [parser.print_help()] prints. *)
Definition main `{NumPy} (help : string) (args : Namespace) (dm : datamodel)
  : prog unit :=
  (let* _ := make_ast_inputs (py_bool (args_flux_bin_method args)) dm in
   if negb (py_any (vars_values args))
   then print help ;; Ret tt
   else Ret tt)%prog.

(** ** Concrete inputs *)

Module Inputs.

(** The catalog as the loader hands it over for the filters [fs]. *)
Definition loaded (cat : Observations) (fs : list string) : Observations :=
  {| obs_filters := fs;
     resolve_alias := resolve_alias cat;
     obs_colnames := obs_colnames cat;
     obs_rows := obs_rows cat |}.

Definition two_filters : list string := ["F475W_RATE"; "F814W_RATE"].

(** Three sources; the second is undetected in F475W and the third in
    F814W. *)
Definition cat_two : Observations :=
  Env.catalog [("F475W_VEGA", [20.0; 99.0; 24.0]%float);
               ("F814W_VEGA", [19.0; 18.0; 99.5]%float)].

(** A single scalar cut. *)
Definition dm_scalar : datamodel :=
  Env.config two_filters [1.0%float] true None None.

(** One cut per filter, two filters. *)
Definition dm_vector : datamodel :=
  Env.config two_filters [27.0; 26.0]%float true None None.

(** One filter and one directly supplied cut. *)
Definition dm_one : datamodel :=
  Env.config ["F475W_RATE"] [28.0%float] true None None.
Definition cat_one : Observations :=
  Env.catalog [("F475W_VEGA", [20.0; 99.0]%float)].

(** Every source undetected in the only filter. *)
Definition dm_undetected : datamodel :=
  Env.config ["F475W_RATE"] [1.0%float] true None None.
Definition cat_undetected : Observations :=
  Env.catalog [("F475W_VEGA", [99.0; 99.0]%float)].

(** A catalog whose alias for the filter spells the token "Rate". *)
Definition dm_mixed : datamodel :=
  Env.config ["F475W_Rate"] [1.0%float] true None None.
Definition cat_mixed : Observations :=
  Env.catalog [("F475W_Vega", [20.0; 21.0]%float)].

(** Positions from the catalog: no map configured. *)
Definition dm_catalog : datamodel :=
  Env.config two_filters [27.0; 26.0]%float true None None.

(** Both a source-density map and a background map configured. *)
Definition dm_both_maps : datamodel :=
  Env.config two_filters [27.0; 26.0]%float true
    (Some "demo_sourceden_map.hd5") (Some "demo_background_map.hd5").

(** Only a background map configured. *)
Definition dm_background : datamodel :=
  Env.config two_filters [27.0; 26.0]%float true
    None (Some "demo_background_map.hd5").

(** An earlier manifest, left by a previous run. *)
Definition old_manifest : Table :=
  {| table_colnames := ["F475W"; "F814W"; "X"; "Y"];
     table_rows := [[1.5; 2.5; 10.0; 20.0]%float] |}.

(** Positions switched off. *)
Definition dm_no_positions : datamodel :=
  Env.config two_filters [27.0; 26.0]%float false
    (Some "demo_sourceden_map.hd5") None.

(** The same configuration as [dm_scalar] under another project name. *)
Definition dm_other_project : datamodel :=
  {| project := "other";
     filters := filters dm_scalar;
     obsfile := obsfile dm_scalar;
     ast_maglimit := ast_maglimit dm_scalar;
     ast_realization_per_model := ast_realization_per_model dm_scalar;
     ast_bands_above_maglimit := ast_bands_above_maglimit dm_scalar;
     ast_n_flux_bins := ast_n_flux_bins dm_scalar;
     ast_n_per_flux_bin := ast_n_per_flux_bin dm_scalar;
     ast_models_selected_per_age := ast_models_selected_per_age dm_scalar;
     ast_with_positions := ast_with_positions dm_scalar;
     ast_source_density_table := ast_source_density_table dm_scalar;
     ast_background_table := ast_background_table dm_scalar;
     ast_N_bins := ast_N_bins dm_scalar;
     ast_reference_image := ast_reference_image dm_scalar;
     ast_coord_boundary := ast_coord_boundary dm_scalar;
     ast_pixel_distribution := ast_pixel_distribution dm_scalar |}.

(** The collaborators over the two-filter catalog. *)
Definition env : handler Env.World := Env.collaborators cat_two Env.seds.

(** No artifact on disk. *)
Definition fresh_disk : Env.World := ∅.

(** The SED list of the project [demo] on disk. *)
Definition seds_on_disk : Env.World :=
  {[ "./demo/demo_inputAST_seds.txt" := Env.seds ]}.

(** Every artifact of the project [demo] on disk. *)
Definition all_on_disk : Env.World :=
  <[ "./demo/demo_inputAST.txt" := old_manifest ]>
    (<[ "./demo/demo_ASTfluxbins.txt" := Env.no_table ]>
       (<[ "./demo/demo_ASTparams.fits" := Env.seds ]> seds_on_disk)).

End Inputs.

(** * Facts *)

(** ** [str.replace] *)

Example replace_rate : PyStr.replace "rate" "vega" "F475W_rate" = "F475W_vega".
Proof. vm_compute. reflexivity. Qed.
Example replace_twice : PyStr.replace "aa" "b" "aaaaa" = "bba".
Proof. vm_compute. reflexivity. Qed.
Example replace_empty : PyStr.replace "" "-" "abc" = "-a-b-c-".
Proof. vm_compute. reflexivity. Qed.

Section ReplaceFacts.

Lemma str_app_assoc (a b c : string) : (a +:+ b) +:+ c = a +:+ (b +:+ c).
Proof. induction a as [|x a IH]; simpl; [reflexivity | now rewrite IH]. Qed.

Lemma prefix_app_self (old s : string) : PyStr.startswith old (old +:+ s) = true.
Proof.
  induction old as [|x old IH]; simpl; [reflexivity|].
  now rewrite Ascii.eqb_refl.
Qed.

Lemma drop_app_length (old s : string) :
  PyStr.drop (String.length old) (old +:+ s) = s.
Proof. induction old as [|x old IH]; simpl; [now destruct s | exact IH]. Qed.

(** One occurrence at the head is consumed and replaced. *)
Lemma replace_scan_head (x : ascii) (old new s : string) :
  PyStr.replace_scan (String x old) new (String x old +:+ s)
  = new +:+ PyStr.replace_scan (String x old) new s.
Proof.
  change (String x old +:+ s) with (String x (old +:+ s)).
  rewrite PyStr.replace_scan_equation_2.
  change (String x (old +:+ s)) with (String x old +:+ s).
  rewrite prefix_app_self. simpl Nat.pred.
  now rewrite drop_app_length.
Qed.

(** Text in which no occurrence starts is copied. *)
Lemma replace_scan_skip (old new q rest : string) :
  starts_within old q rest = false ->
  PyStr.replace_scan old new (q +:+ rest) = q +:+ PyStr.replace_scan old new rest.
Proof.
  induction q as [|c q IH]; cbn [starts_within]; intros H; [reflexivity|].
  apply orb_false_elim in H as [Hp Hq].
  change (String c q +:+ rest) with (String c (q +:+ rest)) in *.
  rewrite PyStr.replace_scan_equation_2, Hp. now rewrite IH.
Qed.

Lemma starts_within_app (old p m rest : string) :
  starts_within old (p +:+ m) rest
  = starts_within old p (m +:+ rest) || starts_within old m rest.
Proof.
  induction p as [|c p IH]; cbn [starts_within]; [reflexivity|].
  change (String c p +:+ m) with (String c (p +:+ m)).
  cbn [starts_within]. rewrite IH.
  change (String c (p +:+ m)) with (String c p +:+ m).
  rewrite str_app_assoc. now rewrite orb_assoc.
Qed.

Lemma replace_scan_absent (old new s : string) :
  PyStr.occurs old s = false -> PyStr.replace_scan old new s = s.
Proof.
  induction s as [|c s IH]; intros H.
  - now rewrite PyStr.replace_scan_equation_1.
  - cbn [PyStr.occurs] in H. apply orb_false_elim in H as [Hp Hs].
    rewrite PyStr.replace_scan_equation_2, Hp. now rewrite IH.
Qed.

End ReplaceFacts.

(** Case analysis on the character comparisons of [PyStr.startswith]
    against a literal token. *)
Ltac prefix_cases :=
  repeat match goal with
    | |- context [Ascii.eqb ?a ?b] =>
        destruct (Ascii.eqb_spec a b); subst; simpl in *;
        try congruence; try reflexivity
    end.

(** A literal four-character token [tok] followed by the literal [m]: when
    [tok] is absent from [p], no occurrence starts inside [p] either. *)
Ltac token_boundary :=
  let p := fresh "p" in
  let c := fresh "c" in
  let IH := fresh "IH" in
  let H := fresh "H" in
  intros p; induction p as [|c p IH]; intros s H; [reflexivity|];
  cbn [PyStr.occurs] in H; apply orb_false_elim in H as [Hp Ho];
  cbn [starts_within]; rewrite (IH s Ho), orb_false_r;
  destruct p as [|x [|y [|z p]]]; simpl in *; prefix_cases.

Section TokenFacts.

Lemma rate_before_rate : forall p s,
  PyStr.occurs "rate" p = false -> starts_within "rate" p ("rate" +:+ s) = false.
Proof. token_boundary. Qed.

Lemma rate_before_RATE : forall p s,
  PyStr.occurs "rate" p = false -> starts_within "rate" p ("RATE" +:+ s) = false.
Proof. token_boundary. Qed.

Lemma RATE_before_RATE : forall p s,
  PyStr.occurs "RATE" p = false -> starts_within "RATE" p ("RATE" +:+ s) = false.
Proof. token_boundary. Qed.

Lemma RATE_before_vega : forall p s,
  PyStr.occurs "RATE" p = false -> starts_within "RATE" p ("vega" +:+ s) = false.
Proof. token_boundary. Qed.

End TokenFacts.

(** ** The magnitude-cut resolver *)

Section ResolverFacts.
Context `{NumPy}.

Lemma rmapM_inr {A B} (f : A -> result B) (l : list A) (bs : list B) :
  rmapM f l = inr bs <-> Forall2 (fun a b => f a = inr b) l bs.
Proof.
  revert bs; induction l as [|a l IH]; intros bs; simpl.
  - split.
    + intros [= <-]. constructor.
    + intros Hf. inversion Hf. reflexivity.
  - unfold rbind, ok. split.
    + destruct (f a) as [e|b] eqn:Hfa; [discriminate|].
      destruct (rmapM f l) as [e|bs'] eqn:Hl; [discriminate|].
      intros [= <-]. constructor; [assumption | now apply IH].
    + intros Hf. inversion Hf as [|a' b l' bs' Hab Hrest]; subst.
      rewrite Hab. apply IH in Hrest. now rewrite Hrest.
Qed.

Lemma rmapM_inl {A B} (f : A -> result B) (l : list A) (e : exn) :
  rmapM f l = inl e -> exists a, a ∈ l /\ f a = inl e.
Proof.
  induction l as [|a l IH]; simpl; [discriminate|].
  unfold rbind, ok.
  destruct (f a) as [e'|b] eqn:Hfa.
  - intros [= <-]. exists a. split; [left | assumption].
  - destruct (rmapM f l) as [e'|bs]; [|discriminate].
    intros [= <-]. destruct IH as (a' & Hin & Ha'); [reflexivity|].
    exists a'. split; [now right | assumption].
Qed.

Lemma rmapM_length {A B} (f : A -> result B) (l : list A) (bs : list B) :
  rmapM f l = inr bs -> length bs = length l.
Proof. intros Hm%rmapM_inr. symmetry. eapply Forall2_length, Hm. Qed.

Lemma colindex_Some (name : string) (colnames : list string) :
  name ∈ colnames -> exists i, colindex name colnames = Some i.
Proof.
  induction colnames as [|n colnames IH]; intros Hin.
  - inversion Hin.
  - simpl. destruct (String.eqb_spec name n) as [->|Hne]; [now exists 0|].
    destruct IH as [i Hi]; [now inversion Hin; subst|].
    exists (S i). now rewrite Hi.
Qed.

Lemma colindex_elem (name : string) (colnames : list string) (i : nat) :
  colindex name colnames = Some i -> name ∈ colnames.
Proof.
  revert i; induction colnames as [|n colnames IH]; intros i; simpl;
    [discriminate|].
  destruct (String.eqb_spec name n) as [->|_]; [left|].
  destruct (colindex name colnames) as [j|]; [|discriminate].
  intros _. right. now apply (IH j).
Qed.

(** A filter with a valid detection has its column in the catalog. *)
Lemma valid_mags_column (obsdata : Observations) (f : string) :
  valid_mags obsdata f <> [] -> sfiltername obsdata f ∈ obs_colnames obsdata.
Proof.
  unfold valid_mags, obs_getitem.
  destruct (colindex _ _) as [i|] eqn:Hi; [|now cbn].
  intros _. eapply colindex_elem, Hi.
Qed.

(** Selecting the rows at the indices where a predicate holds is
    filtering by that predicate; no index is out of range. *)
Lemma take_rows_where {A} (P : A -> bool) (pre rows : list A) :
  take_rows (pre ++ rows) (np_where_from (length pre) (map P rows))
  = ok (List.filter P rows).
Proof.
  revert pre; induction rows as [|r rows IH]; intros pre; [reflexivity|].
  specialize (IH (pre ++ [r])).
  rewrite <- app_assoc, length_app, Nat.add_1_r in IH. simpl in IH.
  simpl. destruct (P r); [|exact IH].
  simpl. rewrite list_lookup_middle by reflexivity.
  now rewrite IH.
Qed.

(** Lines 58-59: [obsdata[keep][sfiltername]] holds the valid magnitudes. *)
Lemma kept_column (obsdata : Observations) (name : string) (col : list float) :
  obs_getitem obsdata name = inr col ->
  (let* kept := obs_getrows obsdata (np_where (np_less col 99.0%float)) in
   obs_getitem kept name)%result = ok (List.filter valid col).
Proof.
  unfold obs_getitem.
  destruct (colindex name (obs_colnames obsdata)) as [i|] eqn:Hi; [|discriminate].
  intros [= <-]. unfold obs_getrows, np_where, np_less.
  rewrite map_map.
  pose proof (take_rows_where (fun row => valid (nth i row PrimFloat.nan)) []
                (obs_rows obsdata)) as Ht.
  simpl in Ht. unfold valid in Ht at 1. rewrite Ht. simpl.
  rewrite Hi. unfold ok. f_equal. clear Ht.
  induction (obs_rows obsdata) as [|r rows IH]; [reflexivity|].
  simpl. destruct (valid (nth i r PrimFloat.nan)); simpl; now rewrite IH.
Qed.

Lemma min_mags_loop_spec (obsdata : Observations) (fs : list string) :
  (forall f, f ∈ fs -> sfiltername obsdata f ∈ obs_colnames obsdata) ->
  forall (j : nat) (min_mags : list float),
    j + length fs <= length min_mags ->
    min_mags_loop obsdata (enumerate_from j fs) min_mags
    = (let* ps := rmapM (percentile90 obsdata) fs in
       ok (take j min_mags ++ ps ++ drop (j + length fs) min_mags))%result.
Proof.
  induction fs as [|f fs IH]; intros Hcols j mm Hlen; simpl.
  - rewrite Nat.add_0_r. unfold ok. now rewrite take_drop.
  - assert (Hf : sfiltername obsdata f ∈ obs_colnames obsdata)
      by (apply Hcols; left).
    unfold percentile90 at 1, valid_mags.
    destruct (obs_getitem obsdata (sfiltername obsdata f)) as [e|col] eqn:Hcol.
    { unfold obs_getitem in Hcol. apply colindex_Some in Hf as [i Hi].
      now rewrite Hi in Hcol. }
    pose proof (kept_column _ _ _ Hcol) as Hkept.
    cbn [rbind] in *.
    destruct (obs_getrows obsdata _) as [e|kept]; [discriminate|].
    cbn [rbind] in *. rewrite Hkept. cbn [rbind ok].
    destruct (np_percentile (List.filter valid col) 90.0%float) as [e|p];
      [reflexivity|].
    simpl in Hlen. unfold np_setitem.
    destruct (Nat.ltb_spec j (length mm)) as [Hj|Hj]; [|lia].
    cbn [rbind ok].
    rewrite IH; [| intros; apply Hcols; now right | rewrite length_insert; lia].
    destruct (rmapM (percentile90 obsdata) fs) as [e|ps];
      [reflexivity|].
    cbn [rbind ok]. f_equal.
    destruct (lookup_lt_is_Some_2 mm j Hj) as [x Hx].
    rewrite (take_S_r (<[j:=p]> mm) j p)
      by (now rewrite list_lookup_insert_eq).
    rewrite take_insert_ge by lia.
    rewrite drop_insert_lt by lia.
    rewrite <- app_assoc. simpl.
    now replace (S (j + length fs)) with (j + S (length fs)) by lia.
Qed.

(** With a single scalar cut and the catalog's columns in place, the
    resolver is the percentile of each filter's valid magnitudes, in
    filter order, each shifted by the cut. *)
Lemma construct_magnitude_cuts_scalar (dm : datamodel) (obsdata : Observations)
    (c : float) :
  ast_maglimit dm = [c] ->
  obs_filters obsdata = filters dm ->
  (forall f, f ∈ filters dm -> sfiltername obsdata f ∈ obs_colnames obsdata) ->
  construct_magnitude_cuts dm obsdata
  = (let* ps := rmapM (percentile90 obsdata) (filters dm) in
     ok (map (fun p => PrimFloat.add p c) ps))%result.
Proof.
  intros Hc Hfs Hcols. unfold construct_magnitude_cuts, enumerate.
  rewrite Hc, Hfs. simpl.
  rewrite min_mags_loop_spec;
    [| assumption | unfold np_zeros; rewrite length_replicate; lia].
  unfold rbind.
  destruct (rmapM (percentile90 obsdata) (filters dm)) as [e|ps] eqn:Hps;
    [reflexivity|].
  apply rmapM_length in Hps.
  rewrite take_0, drop_ge by (unfold np_zeros; rewrite length_replicate; lia).
  now rewrite app_nil_r.
Qed.

End ResolverFacts.

(** ** Runs of the pipeline *)

(** One step of a run: settle what the next collaborator answers, or which
    way the next test goes. *)
Ltac run_step h :=
  match goal with
  | |- context [h ?X ?c ?w] =>
      let e := fresh "e" in
      let x := fresh "x" in
      let w' := fresh "w" in
      let E := fresh "E" in
      destruct (h X c w) as [[e|x] w'] eqn:E
  | |- context [construct_magnitude_cuts ?dm ?o] =>
      let e := fresh "e" in
      let cuts := fresh "cuts" in
      let E := fresh "E" in
      destruct (construct_magnitude_cuts dm o) as [e|cuts] eqn:E
  | |- context [exec _ (bind (if negb ?b then _ else _) _) _] => destruct b
  | |- context [exec _ (if negb ?b then _ else _) _] => destruct b
  | |- context [exec _ (if ?b then _ else _) _] =>
      let E := fresh "E" in destruct b eqn:E
  | |- context [exec _ (bind (if ?b then _ else _) _) _] =>
      let E := fresh "E" in destruct b eqn:E
  | |- context [exec _ (match ?o with Some _ => _ | None => _ end) _] =>
      let E := fresh "E" in destruct o eqn:E
  end.

Ltac run_simpl :=
  cbn [exec bind invoke lift local trace outcome world negb
       isfile_replies isfile_checks toothpick_calls pick_models_calls
       table_reads map_calls xy_calls map_replies printed] in *.

(** All the ways a run of [make_ast_inputs] can go. *)
Ltac run_cases h :=
  unfold make_ast_inputs, select_SEDs, assign_positions; run_simpl;
  repeat (run_step h; run_simpl).

(** * The magnitude-cut resolver: claims *)

(** Lines 55-57 as one function of the alias-resolved column name. *)
Lemma sfiltername_unfold (obsdata : Observations) (filtername : string) :
  sfiltername obsdata filtername
  = PyStr.replace "RATE" "VEGA"
      (PyStr.replace "rate" "vega" (resolve_alias obsdata filtername)).
Proof. reflexivity. Qed.

(** C1: with a single scalar cut [c] and a catalog in which every configured
    filter has at least one magnitude below 99.0, the resolver returns one
    entry per configured filter, in filter order, the entry of a filter
    being the 90th percentile of its valid magnitudes plus [c].  The
    percentile routine is assumed to return on a non-empty sample. *)
Theorem C1_scalar_cut_is_percentile_plus_offset `{NumPy}
    (dm : datamodel) (obsdata : Observations) (c : float) :
  ast_maglimit dm = [c] ->
  obs_filters obsdata = filters dm ->
  (forall f, f ∈ filters dm -> valid_mags obsdata f <> []) ->
  (forall a : list float, a <> [] -> exists v, np_percentile a 90.0%float = inr v) ->
  exists cuts : list float,
    construct_magnitude_cuts dm obsdata = inr cuts /\
    length cuts = length (filters dm) /\
    forall (k : nat) (f : string),
      filters dm !! k = Some f ->
      exists p, percentile90 obsdata f = inr p /\
                cuts !! k = Some (PrimFloat.add p c).
Proof.
  intros Hc Hfs Hvalid Hnp.
  assert (Hcols : forall f, f ∈ filters dm ->
                            sfiltername obsdata f ∈ obs_colnames obsdata).
  { intros f Hf. now apply valid_mags_column, Hvalid. }
  rewrite (construct_magnitude_cuts_scalar dm obsdata c Hc Hfs Hcols).
  destruct (rmapM (percentile90 obsdata) (filters dm)) as [e|ps] eqn:Hps.
  - apply rmapM_inl in Hps as (f & Hf & Hfe).
    destruct (Hnp _ (Hvalid f Hf)) as [v Hv].
    unfold percentile90 in Hfe. congruence.
  - apply rmapM_inr in Hps.
    exists (map (fun p => PrimFloat.add p c) ps). cbn [rbind ok].
    split; [reflexivity|]. split.
    + rewrite length_map. symmetry. eapply Forall2_length, Hps.
    + intros k f Hk.
      destruct (Forall2_lookup_l _ _ _ _ _ Hps Hk) as (p & Hp & Hfp).
      exists p. split; [assumption|].
      now rewrite list_lookup_fmap, Hp.
Qed.

(** With a single scalar cut and a filter that has no valid detection,
    the resolver makes no check of its own.  It hands the empty sample to
    the percentile routine: when that returns a value [v] the filter's cut
    is [v + c], and the only exceptions the resolver raises are those the
    percentile routine raised. *)
Lemma empty_sample_goes_to_percentile `{NumPy}
    (dm : datamodel) (obsdata : Observations) (c : float) (k : nat) (f : string) :
  ast_maglimit dm = [c] ->
  obs_filters obsdata = filters dm ->
  (forall f', f' ∈ filters dm -> sfiltername obsdata f' ∈ obs_colnames obsdata) ->
  filters dm !! k = Some f ->
  valid_mags obsdata f = [] ->
  match construct_magnitude_cuts dm obsdata with
  | inr cuts =>
      exists v, np_percentile [] 90.0%float = inr v /\
                cuts !! k = Some (PrimFloat.add v c)
  | inl e =>
      exists f', f' ∈ filters dm /\ percentile90 obsdata f' = inl e
  end.
Proof.
  intros Hc Hfs Hcols Hk Hempty.
  rewrite (construct_magnitude_cuts_scalar dm obsdata c Hc Hfs Hcols).
  destruct (rmapM (percentile90 obsdata) (filters dm)) as [e|ps] eqn:Hps;
    cbn [rbind ok].
  - now apply rmapM_inl in Hps.
  - apply rmapM_inr in Hps.
    destruct (Forall2_lookup_l _ _ _ _ _ Hps Hk) as (v & Hv & Hfv).
    exists v. unfold percentile90 in Hfv. rewrite Hempty in Hfv.
    split; [assumption|]. now rewrite list_lookup_fmap, Hv.
Qed.

(** C7: with a single scalar cut and a filter that has no valid detection,
    the resolver raises and returns no cut vector, so none with an
    undefined or NaN entry.  The resolver has no test of its own: the
    error is the one [np.percentile] raises on the empty sample, which is
    what the hypothesis on the percentile routine says of it. *)
Theorem C7_undetected_filter_raises `{NumPy}
    (dm : datamodel) (obsdata : Observations) (c : float) (k : nat) (f : string)
    (e0 : exn) :
  ast_maglimit dm = [c] ->
  obs_filters obsdata = filters dm ->
  (forall f', f' ∈ filters dm -> sfiltername obsdata f' ∈ obs_colnames obsdata) ->
  filters dm !! k = Some f ->
  valid_mags obsdata f = [] ->
  np_percentile [] 90.0%float = inl e0 ->
  exists e : exn,
    construct_magnitude_cuts dm obsdata = inl e /\
    exists f', f' ∈ filters dm /\ percentile90 obsdata f' = inl e.
Proof.
  intros Hc Hfs Hcols Hk Hempty Hraise.
  pose proof (empty_sample_goes_to_percentile dm obsdata c k f
                Hc Hfs Hcols Hk Hempty) as Hres.
  destruct (construct_magnitude_cuts dm obsdata) as [e|cuts].
  - exists e. split; [reflexivity | exact Hres].
  - destruct Hres as (v & Hv & _). congruence.
Qed.

(** C8 (as amended): a directly supplied cut vector whose length is the
    number of filters and is not one is passed on unchanged, whatever the
    catalog holds and whatever the percentile routine would do; it is the
    vector every sampler call of a run receives. *)
Theorem C8_vector_cut_passes_through `{NumPy} (dm : datamodel) :
  length (ast_maglimit dm) = length (filters dm) ->
  length (filters dm) <> 1 ->
  (forall obsdata : Observations,
     construct_magnitude_cuts dm obsdata = inr (ast_maglimit dm)) /\
  (forall (W : Type) (h : handler W) (w : W) (flux_bin_method : bool),
     let r := exec h (make_ast_inputs flux_bin_method dm) w in
     Forall (fun a => tp_mag_cuts a = ast_maglimit dm) (toothpick_calls (trace r)) /\
     Forall (fun a => pm_mag_cuts a = ast_maglimit dm) (pick_models_calls (trace r))).
Proof.
  intros Hlen Hne.
  assert (Hpass : forall obsdata,
             construct_magnitude_cuts dm obsdata = inr (ast_maglimit dm)).
  { intros obsdata. unfold construct_magnitude_cuts.
    destruct (Nat.eqb_spec (length (ast_maglimit dm)) 1) as [H1|_]; [|reflexivity].
    congruence. }
  split; [exact Hpass|].
  intros W h w flux_bin_method.
  run_cases h; repeat split; repeat constructor; cbn;
    match goal with
    | E : construct_magnitude_cuts _ ?o = inr _ |- _ =>
        rewrite (Hpass o) in E; congruence
    end.
Qed.

(** C9 (as amended): the column name looked up is the alias-resolved name
    with the all-lowercase token "rate" turned into "vega" and the
    all-uppercase token "RATE" turned into "VEGA"; a name containing
    neither is looked up as it is, so other casings are not translated. *)
Theorem C9_rate_token_translation (obsdata : Observations)
    (filtername p s : string) :
  PyStr.occurs "rate" p = false ->
  PyStr.occurs "RATE" p = false ->
  (resolve_alias obsdata filtername = p +:+ "rate" +:+ s ->
   sfiltername obsdata filtername
   = p +:+ "vega" +:+ PyStr.replace "RATE" "VEGA" (PyStr.replace "rate" "vega" s)) /\
  (resolve_alias obsdata filtername = p +:+ "RATE" +:+ s ->
   sfiltername obsdata filtername
   = p +:+ "VEGA" +:+ PyStr.replace "RATE" "VEGA" (PyStr.replace "rate" "vega" s)) /\
  (resolve_alias obsdata filtername = p ->
   sfiltername obsdata filtername = p).
Proof.
  intros Hr HR. rewrite sfiltername_unfold. unfold PyStr.replace.
  split; [|split]; intros ->.
  - rewrite (replace_scan_skip "rate" "vega" p ("rate" +:+ s))
      by now apply rate_before_rate.
    rewrite (replace_scan_head "r" "ate" "vega" s).
    rewrite <- (str_app_assoc p "vega").
    rewrite (replace_scan_skip "RATE" "VEGA" (p +:+ "vega")).
    + now rewrite str_app_assoc.
    + rewrite starts_within_app.
      rewrite RATE_before_vega by assumption. reflexivity.
  - rewrite <- (str_app_assoc p "RATE").
    rewrite (replace_scan_skip "rate" "vega" (p +:+ "RATE")).
    + rewrite str_app_assoc.
      rewrite (replace_scan_skip "RATE" "VEGA" p)
        by now apply RATE_before_RATE.
      now rewrite (replace_scan_head "R" "ATE" "VEGA").
    + rewrite starts_within_app.
      rewrite rate_before_RATE by assumption. reflexivity.
  - rewrite (replace_scan_absent "rate" "vega" p Hr).
    exact (replace_scan_absent "RATE" "VEGA" p HR).
Qed.

Section ResolverOnInputs.
Import Inputs.
#[local] Existing Instance Env.numpy.

(** The two-filter catalog under a scalar cut of 1.0. *)
Lemma C1_witness :
  exists cuts : list float,
    construct_magnitude_cuts dm_scalar (loaded cat_two two_filters) = inr cuts /\
    length cuts = length (filters dm_scalar) /\
    forall (k : nat) (f : string),
      filters dm_scalar !! k = Some f ->
      exists p, percentile90 (loaded cat_two two_filters) f = inr p /\
                cuts !! k = Some (PrimFloat.add p 1.0%float).
Proof.
  apply (C1_scalar_cut_is_percentile_plus_offset
           dm_scalar (loaded cat_two two_filters) 1.0%float).
  - reflexivity.
  - reflexivity.
  - intros f Hf. apply list_elem_of_In in Hf.
    destruct Hf as [<-|[<-|[]]]; vm_compute; discriminate.
  - intros [|x0 rest] Ha; [congruence|]. eexists. reflexivity.
Defined.

(** What the resolver returns on that input. *)
Example scenario_A :
  construct_magnitude_cuts dm_scalar (loaded cat_two two_filters)
  = inr [PrimFloat.add (Env.linear_percentile 20.0 [24.0] 90.0)%float 1.0%float;
         PrimFloat.add (Env.linear_percentile 19.0 [18.0] 90.0)%float 1.0%float].
Proof. vm_compute. reflexivity. Qed.

(** Every F475W magnitude is the sentinel 99.0. *)
Lemma C7_witness :
  valid_mags (loaded cat_undetected ["F475W_RATE"]) "F475W_RATE" = [] /\
  exists e : exn,
    construct_magnitude_cuts dm_undetected (loaded cat_undetected ["F475W_RATE"])
    = inl e /\
    exists f', f' ∈ filters dm_undetected /\
               percentile90 (loaded cat_undetected ["F475W_RATE"]) f' = inl e.
Proof.
  split; [vm_compute; reflexivity|].
  apply (C7_undetected_filter_raises
           dm_undetected (loaded cat_undetected ["F475W_RATE"]) 1.0%float
           0 "F475W_RATE" IndexError).
  - reflexivity.
  - reflexivity.
  - intros f Hf. apply list_elem_of_In in Hf.
    destruct Hf as [<-|[]]. vm_compute. left.
  - reflexivity.
  - vm_compute. reflexivity.
  - reflexivity.
Defined.

(** On that input the resolver ends with the [IndexError] of the
    percentile routine. *)
Example scenario_E :
  construct_magnitude_cuts dm_undetected (loaded cat_undetected ["F475W_RATE"])
  = inl IndexError.
Proof. vm_compute. reflexivity. Qed.

(** C8, counterexample: one filter, one directly supplied cut of 28.0; the
    resolver treats it as an offset to the percentile 20.0. *)
Lemma C8_single_filter_cut_is_offset :
  length (ast_maglimit dm_one) = length (filters dm_one) /\
  ast_maglimit dm_one = [28.0%float] /\
  construct_magnitude_cuts dm_one (loaded cat_one ["F475W_RATE"])
  = inr [48.0%float].
Proof. repeat split; vm_compute; reflexivity. Qed.

(** Two filters and two directly supplied cuts. *)
Lemma C8_witness :
  length (ast_maglimit dm_vector) = length (filters dm_vector) /\
  construct_magnitude_cuts dm_vector (loaded cat_two two_filters)
  = inr [27.0; 26.0]%float.
Proof.
  split; [reflexivity|].
  apply (C8_vector_cut_passes_through dm_vector).
  - reflexivity.
  - vm_compute. lia.
Defined.

(** C9, counterexample: the alias-resolved name spells the token "Rate";
    it is left as it is, and the lookup of that column fails although the
    catalog has the magnitudes under "F475W_Vega". *)
Lemma C9_mixed_case_token_not_translated :
  PyStr.occurs "Rate" (resolve_alias cat_mixed "F475W_Rate") = true /\
  sfiltername cat_mixed "F475W_Rate" = "F475W_Rate" /\
  construct_magnitude_cuts dm_mixed (loaded cat_mixed ["F475W_Rate"])
  = inl (KeyError "F475W_Rate").
Proof. repeat split; vm_compute; reflexivity. Qed.

(** The three spellings of the token. *)
Lemma C9_witness :
  sfiltername cat_two "F475W_RATE" = "F475W_VEGA" /\
  sfiltername cat_two "F475W_rate" = "F475W_vega" /\
  sfiltername cat_two "F475W_Rate" = "F475W_Rate".
Proof.
  split; [|split].
  - apply (C9_rate_token_translation cat_two "F475W_RATE" "F475W_" "");
      reflexivity.
  - apply (C9_rate_token_translation cat_two "F475W_rate" "F475W_" "");
      reflexivity.
  - apply (C9_rate_token_translation cat_two "F475W_Rate" "F475W_Rate" "");
      reflexivity.
Defined.

End ResolverOnInputs.

(** * The pipeline: claims *)

Section PipelineFacts.
Context `{NumPy} {W : Type} (h : handler W).

(** The only file whose existence is ever checked is the SED list, and it
    is checked at most once. *)
Lemma only_seds_checked (w : W) (flux_bin_method : bool) (dm : datamodel) :
  let r := exec h (make_ast_inputs flux_bin_method dm) w in
  isfile_checks (trace r) = [] \/ isfile_checks (trace r) = [outfile_seds dm].
Proof. run_cases h; auto. Qed.

End PipelineFacts.

(** C2: when the existence check of the SED list answers True, no sampler
    is invoked whatever the selection method; the SED list is read, once,
    in ascii format, and what that read returns is the Chosen SED Set
    handed to the position stage. *)
Theorem C2_cached_seds_are_loaded_not_resampled `{NumPy} {W : Type}
    (h : handler W) (w : W) (flux_bin_method : bool) (dm : datamodel) :
  let r := exec h (make_ast_inputs flux_bin_method dm) w in
  isfile_replies (trace r) = [(outfile_seds dm, true)] ->
  toothpick_calls (trace r) = [] /\
  pick_models_calls (trace r) = [] /\
  exists reply,
    table_reads (trace r) = [(outfile_seds dm, "ascii", reply)] /\
    Forall (fun a => reply = inr (map_chosen_seds a)) (map_calls (trace r)).
Proof.
  run_cases h; intros Hfile; try discriminate;
    repeat split; eexists; split; try reflexivity; repeat constructor.
Qed.

(** C3 (the code at the failing input): with the random method selected and
    the SED list absent, the run stops with [UnboundLocalError] on
    [modelsedgrid_filename]; the random-model sampler is not invoked. *)
Theorem C3_random_method_raises_before_sampling `{NumPy} {W : Type}
    (h : handler W) (w : W) (dm : datamodel) :
  let r := exec h (make_ast_inputs false dm) w in
  isfile_replies (trace r) = [(outfile_seds dm, false)] ->
  pick_models_calls (trace r) = [] /\
  toothpick_calls (trace r) = [] /\
  outcome r = raise (UnboundLocalError "modelsedgrid_filename").
Proof. run_cases h; intros Hfile; try discriminate; auto. Qed.

(** C4 (as amended): of the three stages only SED selection is guarded by a
    file-existence check.  The SED list is the only path ever checked; when
    it is present nothing is sampled and the list is read back.  Position
    assignment is not guarded: once the SED list has been read and
    positions are enabled, a position sampler is invoked with the manifest
    path, whatever is on disk. *)
Theorem C4_only_sed_selection_is_guarded `{NumPy} {W : Type}
    (h : handler W) (w : W) (flux_bin_method : bool) (dm : datamodel)
    (chosen_seds : Table) :
  let r := exec h (make_ast_inputs flux_bin_method dm) w in
  isfile_replies (trace r) = [(outfile_seds dm, true)] ->
  table_reads (trace r) = [(outfile_seds dm, "ascii", inr chosen_seds)] ->
  ast_with_positions dm = true ->
  isfile_checks (trace r) = [outfile_seds dm] /\
  toothpick_calls (trace r) = [] /\
  pick_models_calls (trace r) = [] /\
  map map_outfile (map_calls (trace r)) ++ map xy_outfile (xy_calls (trace r))
  = [outfile dm].
Proof.
  run_cases h; intros Hfile Hread Hpos; try discriminate; try congruence; auto.
Qed.

(** C5: with positions enabled and both a source-density map and a
    background map configured, the position stage is the one call of the
    map-based sampler on the source-density map with all filters defining
    the region; it contains no check that could raise.  In every run the
    background and catalog branches are not taken, and the run ends as the
    sampler's call ends. *)
Theorem C5_source_density_branch_wins `{NumPy}
    (dm : datamodel) (source_density background : string) :
  ast_with_positions dm = true ->
  ast_source_density_table dm = Some source_density ->
  ast_background_table dm = Some background ->
  (forall obsdata chosen_seds,
     assign_positions dm obsdata chosen_seds
     = (print "Assigning positions to artifical stars" ;;
        invoke (pick_positions_from_map
                  {| map_catalog := obsdata;
                     map_chosen_seds := chosen_seds;
                     map_table := source_density;
                     map_N_bins := ast_N_bins dm;
                     map_realization_per_model := ast_realization_per_model dm;
                     map_outfile := outfile dm;
                     map_refimage := ast_reference_image dm;
                     map_refimage_hdu := 1;
                     map_wcs_origin := 1;
                     map_Nrealize := 1;
                     map_set_coord_boundary := ast_coord_boundary dm;
                     map_region_from_filters := Some "all" |}))%prog) /\
  (forall (W : Type) (h : handler W) (w : W) (flux_bin_method : bool),
     let r := exec h (make_ast_inputs flux_bin_method dm) w in
     xy_calls (trace r) = [] /\
     Forall (fun a => map_table a = source_density /\
                      map_region_from_filters a = Some "all")
            (map_calls (trace r)) /\
     Forall (fun reply => outcome r = reply) (map_replies (trace r))).
Proof.
  intros Hpos Hsd Hbg. split.
  - intros obsdata chosen_seds. unfold assign_positions.
    now rewrite Hpos, Hsd.
  - intros W h w flux_bin_method.
    run_cases h; try congruence; repeat split; repeat constructor;
      cbn; congruence.
Qed.

(** The manifest and the SED list are different files. *)
Lemma outfile_not_outfile_seds (dm : datamodel) : outfile dm <> outfile_seds dm.
Proof.
  unfold outfile, outfile_seds. intros Heq.
  do 4 apply (inj (String.append _)) in Heq. discriminate.
Qed.

(** C6 (the code at the failing input): with positions enabled and no map
    configured, the position stage is the one call of the catalog-based
    sampler, given the catalog, the manifest path, the pixel distribution
    and the reference image.  The Chosen SED Set is not among these inputs:
    the call is the same whatever that set is, and the path given is not
    the SED list's. *)
Theorem C6_catalog_branch_omits_chosen_seds `{NumPy} (dm : datamodel) :
  ast_with_positions dm = true ->
  ast_source_density_table dm = None ->
  ast_background_table dm = None ->
  (forall obsdata chosen_seds,
     assign_positions dm obsdata chosen_seds
     = (print "Assigning positions to artifical stars" ;;
        invoke (pick_positions
                  {| xy_catalog := obsdata;
                     xy_outfile := outfile dm;
                     xy_pixel_distribution := ast_pixel_distribution dm;
                     xy_refimage := ast_reference_image dm |}))%prog) /\
  outfile dm <> outfile_seds dm /\
  (forall (W : Type) (h : handler W) (w : W) (flux_bin_method : bool),
     let r := exec h (make_ast_inputs flux_bin_method dm) w in
     map_calls (trace r) = [] /\
     Forall (fun a => xy_outfile a = outfile dm /\
                      xy_refimage a = ast_reference_image dm)
            (xy_calls (trace r))).
Proof.
  intros Hpos Hsd Hbg. split; [|split].
  - intros obsdata chosen_seds. unfold assign_positions.
    now rewrite Hpos, Hsd, Hbg.
  - apply outfile_not_outfile_seds.
  - intros W h w flux_bin_method.
    run_cases h; try congruence; repeat split; repeat constructor.
Qed.

(** C10: with positions enabled and a source-density or background map
    configured, the position stage is one call of the map-based sampler
    whose [Nrealize], [refimage_hdu] and [wcs_origin] are the constant 1,
    the configured number of realizations per model being the fifth
    positional argument; every map-based call of every run is of that
    form. *)
Theorem C10_map_branches_fix_Nrealize `{NumPy} (dm : datamodel) :
  ast_with_positions dm = true ->
  ast_source_density_table dm <> None \/ ast_background_table dm <> None ->
  (forall obsdata chosen_seds,
     exists a : map_call,
       assign_positions dm obsdata chosen_seds
       = (print "Assigning positions to artifical stars" ;;
          invoke (pick_positions_from_map a))%prog /\
       map_Nrealize a = 1%Z /\
       map_realization_per_model a = ast_realization_per_model dm /\
       map_refimage_hdu a = 1%Z /\
       map_wcs_origin a = 1%Z) /\
  (forall (W : Type) (h : handler W) (w : W) (flux_bin_method : bool),
     let r := exec h (make_ast_inputs flux_bin_method dm) w in
     xy_calls (trace r) = [] /\
     Forall (fun a => map_Nrealize a = 1%Z /\
                      map_realization_per_model a = ast_realization_per_model dm /\
                      map_refimage_hdu a = 1%Z /\
                      map_wcs_origin a = 1%Z)
            (map_calls (trace r))).
Proof.
  intros Hpos Hmap. split.
  - intros obsdata chosen_seds. unfold assign_positions. rewrite Hpos.
    destruct (ast_source_density_table dm) as [sd|]; [|
      destruct (ast_background_table dm) as [bg|]; [|now destruct Hmap]];
      eexists; repeat split.
  - intros W h w flux_bin_method.
    run_cases h; try congruence; repeat split; repeat constructor;
      destruct Hmap; congruence.
Qed.

Section PipelineOnInputs.
Import Inputs.
#[local] Existing Instance Env.numpy.

(** The SED list on disk and the random method selected. *)
Lemma C2_witness :
  let r := exec env (make_ast_inputs false dm_both_maps) seds_on_disk in
  isfile_replies (trace r) = [(outfile_seds dm_both_maps, true)] /\
  toothpick_calls (trace r) = [] /\
  pick_models_calls (trace r) = [] /\
  exists reply,
    table_reads (trace r) = [(outfile_seds dm_both_maps, "ascii", reply)] /\
    Forall (fun a => reply = inr (map_chosen_seds a)) (map_calls (trace r)).
Proof.
  split; [vm_compute; reflexivity|].
  apply (C2_cached_seds_are_loaded_not_resampled env seds_on_disk false dm_both_maps).
  vm_compute. reflexivity.
Defined.

(** Scenario B under either selection method: the table on disk is what
    reaches the position sampler. *)
Example scenario_B (flux_bin_method : bool) :
  let r := exec env (make_ast_inputs flux_bin_method dm_both_maps) seds_on_disk in
  printed (trace r)
  = ["Reading existing AST SEDs"; "Assigning positions to artifical stars"] /\
  map map_chosen_seds (map_calls (trace r)) = [Env.seds] /\
  toothpick_calls (trace r) = [] /\
  pick_models_calls (trace r) = [] /\
  outcome r = ok tt.
Proof. destruct flux_bin_method; vm_compute; auto. Qed.

(** An empty project directory and the random method selected. *)
Lemma C3_witness :
  let r := exec env (make_ast_inputs false dm_catalog) fresh_disk in
  isfile_replies (trace r) = [(outfile_seds dm_catalog, false)] /\
  pick_models_calls (trace r) = [] /\
  toothpick_calls (trace r) = [] /\
  outcome r = raise (UnboundLocalError "modelsedgrid_filename").
Proof.
  split; [vm_compute; reflexivity|].
  apply (C3_random_method_raises_before_sampling env fresh_disk dm_catalog).
  vm_compute. reflexivity.
Defined.

(** The flux-bin method on the same input does sample. *)
Example flux_bin_method_samples :
  let r := exec env (make_ast_inputs true dm_catalog) fresh_disk in
  map tp_modelsedgrid_filename (toothpick_calls (trace r))
  = ["./demo/demo_seds.grid.hd5"] /\
  outcome r = ok tt.
Proof. vm_compute. auto. Qed.

(** C4, counterexample: every artifact of the project is on disk, and the
    run still invokes the position sampler on the manifest path; the
    manifest left by the earlier run is replaced. *)
Lemma C4_position_stage_reruns_with_all_artifacts_present :
  let r := exec env (make_ast_inputs true dm_catalog) all_on_disk in
  all_on_disk !! outfile_seds dm_catalog = Some Env.seds /\
  all_on_disk !! outfile_params dm_catalog = Some Env.seds /\
  all_on_disk !! bins_outfile dm_catalog = Some Env.no_table /\
  all_on_disk !! outfile dm_catalog = Some old_manifest /\
  isfile_checks (trace r) = [outfile_seds dm_catalog] /\
  map xy_outfile (xy_calls (trace r)) = [outfile dm_catalog] /\
  world r !! outfile dm_catalog = Some Env.no_table.
Proof. vm_compute. repeat split. Qed.

(** Every artifact on disk, positions enabled. *)
Lemma C4_witness :
  let r := exec env (make_ast_inputs true dm_catalog) all_on_disk in
  isfile_replies (trace r) = [(outfile_seds dm_catalog, true)] /\
  isfile_checks (trace r) = [outfile_seds dm_catalog] /\
  toothpick_calls (trace r) = [] /\
  pick_models_calls (trace r) = [] /\
  map map_outfile (map_calls (trace r)) ++ map xy_outfile (xy_calls (trace r))
  = [outfile dm_catalog].
Proof.
  split; [vm_compute; reflexivity|].
  apply (C4_only_sed_selection_is_guarded env all_on_disk true dm_catalog Env.seds).
  - vm_compute. reflexivity.
  - vm_compute. reflexivity.
  - reflexivity.
Defined.

(** Both maps configured. *)
Lemma C5_witness :
  let r := exec env (make_ast_inputs true dm_both_maps) fresh_disk in
  xy_calls (trace r) = [] /\
  Forall (fun a => map_table a = "demo_sourceden_map.hd5" /\
                   map_region_from_filters a = Some "all")
         (map_calls (trace r)) /\
  Forall (fun reply => outcome r = reply) (map_replies (trace r)).
Proof.
  apply (C5_source_density_branch_wins dm_both_maps
           "demo_sourceden_map.hd5" "demo_background_map.hd5");
    reflexivity.
Defined.

(** With both maps configured the one position call is on the
    source-density map, and the run returns normally. *)
Example both_maps_run :
  let r := exec env (make_ast_inputs true dm_both_maps) fresh_disk in
  map map_table (map_calls (trace r)) = ["demo_sourceden_map.hd5"] /\
  outcome r = ok tt.
Proof. vm_compute. auto. Qed.

(** No map configured. *)
Lemma C6_witness :
  let r := exec env (make_ast_inputs true dm_catalog) fresh_disk in
  map_calls (trace r) = [] /\
  Forall (fun a => xy_outfile a = outfile dm_catalog /\
                   xy_refimage a = ast_reference_image dm_catalog)
         (xy_calls (trace r)).
Proof.
  apply (C6_catalog_branch_omits_chosen_seds dm_catalog); reflexivity.
Defined.

(** The catalog-based call of that run, in full. *)
Example catalog_branch_run :
  let r := exec env (make_ast_inputs true dm_catalog) fresh_disk in
  xy_calls (trace r)
  = [{| xy_catalog := loaded cat_two two_filters;
        xy_outfile := "./demo/demo_inputAST.txt";
        xy_pixel_distribution := 10.0%float;
        xy_refimage := Some "demo_ref.fits" |}].
Proof. vm_compute. reflexivity. Qed.

(** Only the background map configured. *)
Lemma C10_witness :
  let r := exec env (make_ast_inputs true dm_background) fresh_disk in
  xy_calls (trace r) = [] /\
  Forall (fun a => map_Nrealize a = 1%Z /\
                   map_realization_per_model a
                   = ast_realization_per_model dm_background /\
                   map_refimage_hdu a = 1%Z /\
                   map_wcs_origin a = 1%Z)
         (map_calls (trace r)).
Proof.
  apply (C10_map_branches_fix_Nrealize dm_background).
  - reflexivity.
  - right. discriminate.
Defined.

(** The configured 20 realizations per model travel as the fifth
    positional argument while [Nrealize] stays 1. *)
Example background_branch_run :
  let r := exec env (make_ast_inputs true dm_background) fresh_disk in
  map (fun a => (map_table a, map_realization_per_model a, map_Nrealize a,
                 map_region_from_filters a))
      (map_calls (trace r))
  = [("demo_background_map.hd5", 20%Z, 1%Z, None)].
Proof. vm_compute. reflexivity. Qed.

End PipelineOnInputs.

(** * Beyond the claims *)

(** ** Column-name translation (lines 55-57) *)

Section TranslationFacts.

Lemma startswith_length (old s : string) :
  PyStr.startswith old s = true -> String.length old <= String.length s.
Proof.
  revert s; induction old as [|a old IH]; intros [|c s]; simpl; try lia;
    try discriminate.
  intros [_ Hs]%andb_prop. specialize (IH s Hs). lia.
Qed.

Lemma drop_length (n : nat) (s : string) :
  String.length (PyStr.drop n s) = String.length s - n.
Proof. revert s; induction n as [|n IH]; intros [|c s]; simpl; auto. Qed.

Lemma str_app_length (a b : string) :
  String.length (a +:+ b) = String.length a + String.length b.
Proof. induction a as [|x a IH]; simpl; [reflexivity | now rewrite IH]. Qed.

(** What [replace_scan] does to a non-empty text. *)
Lemma replace_scan_cons (old new : string) (c : ascii) (r : string) :
  PyStr.replace_scan old new (String c r)
  = if PyStr.startswith old (String c r)
    then new +:+ PyStr.replace_scan old new
                   (PyStr.drop (Nat.pred (String.length old)) r)
    else String c (PyStr.replace_scan old new r).
Proof. now rewrite PyStr.replace_scan_equation_2. Qed.

(** Replacing by a text of the same length keeps the length. *)
Lemma replace_scan_length (x : ascii) (old new s : string) :
  String.length new = S (String.length old) ->
  String.length (PyStr.replace_scan (String x old) new s) = String.length s.
Proof.
  intros Hlen. remember (String.length s) as n eqn:Hn.
  revert s Hn. induction n as [n IH] using lt_wf_ind. intros [|c r] Hn.
  - now rewrite PyStr.replace_scan_equation_1.
  - rewrite replace_scan_cons.
    destruct (PyStr.startswith (String x old) (String c r)) eqn:Hs.
    + apply startswith_length in Hs. simpl in Hs, Hn.
      rewrite str_app_length.
      rewrite (IH (String.length (PyStr.drop (Nat.pred (String.length (String x old))) r)));
        try reflexivity; rewrite drop_length; simpl; lia.
    + simpl in *. rewrite (IH (String.length r)); auto; lia.
Qed.

(** A prefix test by a text that avoids the first characters of [old] and
    [new] cannot tell a text from its replacement. *)
Lemma startswith_replace_scan (x y : ascii) (old new u s : string) :
  avoids x y u = true ->
  PyStr.startswith u (PyStr.replace_scan (String x old) (String y new) s)
  = PyStr.startswith u s.
Proof.
  revert s; induction u as [|a u IH]; intros s Hu; [now destruct s|].
  cbn [avoids] in Hu. apply andb_prop in Hu as [[Hax Hay]%andb_prop Hu].
  apply negb_true_iff in Hax, Hay.
  destruct s as [|c r]; [now rewrite PyStr.replace_scan_equation_1|].
  rewrite replace_scan_cons.
  destruct (PyStr.startswith (String x old) (String c r)) eqn:Hs.
  - cbn [PyStr.startswith] in Hs. apply andb_prop in Hs as [Hxc _].
    apply Ascii.eqb_eq in Hxc as <-.
    cbn [String.append PyStr.startswith]. now rewrite Hax, Hay.
  - cbn [PyStr.startswith]. now rewrite IH.
Qed.

(** A text that avoids the first character of the token hides no
    occurrence of it. *)
Lemma occurs_app_avoids (a : ascii) (u m t : string) :
  avoids a a m = true ->
  PyStr.occurs (String a u) (m +:+ t) = PyStr.occurs (String a u) t.
Proof.
  induction m as [|c m IH]; intros Hm; [reflexivity|].
  cbn [avoids] in Hm. apply andb_prop in Hm as [[Hca _]%andb_prop Hm].
  apply negb_true_iff in Hca. rewrite Ascii.eqb_sym in Hca.
  cbn [String.append PyStr.occurs PyStr.startswith]. rewrite Hca. cbn [andb orb].
  now apply IH.
Qed.

Lemma occurs_drop (u : string) (n : nat) (s : string) :
  PyStr.occurs u s = false -> PyStr.occurs u (PyStr.drop n s) = false.
Proof.
  revert s; induction n as [|n IH]; intros [|c s] H; auto.
  cbn [PyStr.occurs] in H. apply orb_false_elim in H as [_ H].
  now apply IH.
Qed.

(** After the replacement no occurrence of the replaced token is left. *)
Lemma occurs_replace_scan_self (x y : ascii) (old new s : string) :
  avoids x y old = true ->
  avoids x x (String y new) = true ->
  PyStr.occurs (String x old)
    (PyStr.replace_scan (String x old) (String y new) s) = false.
Proof.
  intros Hold Hnew. remember (String.length s) as n eqn:Hn.
  revert s Hn. induction n as [n IH] using lt_wf_ind. intros [|c r] Hn.
  - now rewrite PyStr.replace_scan_equation_1.
  - rewrite replace_scan_cons.
    destruct (PyStr.startswith (String x old) (String c r)) eqn:Hs.
    + rewrite occurs_app_avoids by assumption.
      eapply IH; [|reflexivity].
      rewrite drop_length. simpl in Hn. lia.
    + change (PyStr.occurs (String x old) (String c ?t))
        with (PyStr.startswith (String x old) (String c t)
              || PyStr.occurs (String x old) t).
      rewrite (IH (String.length r)) by (simpl in Hn; auto; lia).
      cbn [PyStr.startswith] in *.
      now rewrite startswith_replace_scan, Hs.
Qed.

(** The replacement creates no occurrence of a token it is disjoint from. *)
Lemma occurs_replace_scan_other (x y a : ascii) (old new u s : string) :
  avoids x y u = true ->
  avoids a a (String y new) = true ->
  PyStr.occurs (String a u) s = false ->
  PyStr.occurs (String a u)
    (PyStr.replace_scan (String x old) (String y new) s) = false.
Proof.
  intros Hu Hnew. remember (String.length s) as n eqn:Hn.
  revert s Hn. induction n as [n IH] using lt_wf_ind. intros [|c r] Hn Hs.
  - now rewrite PyStr.replace_scan_equation_1.
  - rewrite replace_scan_cons.
    cbn [PyStr.occurs] in Hs. apply orb_false_elim in Hs as [Hc Hr].
    destruct (PyStr.startswith (String x old) (String c r)) eqn:Hm.
    + rewrite occurs_app_avoids by assumption.
      eapply IH; [|reflexivity|now apply occurs_drop].
      rewrite drop_length. simpl in Hn. lia.
    + change (PyStr.occurs (String a u) (String c ?t))
        with (PyStr.startswith (String a u) (String c t)
              || PyStr.occurs (String a u) t).
      rewrite (IH (String.length r)) by (simpl in Hn; auto; lia).
      cbn [PyStr.startswith] in *.
      now rewrite startswith_replace_scan, Hc.
Qed.

End TranslationFacts.

(** X1: whatever the alias resolves to, the column name looked up contains
    neither "rate" nor "RATE", and translating it again changes nothing. *)
Theorem X1_translated_name_has_no_rate_token (obsdata : Observations)
    (filtername : string) :
  PyStr.occurs "rate" (sfiltername obsdata filtername) = false /\
  PyStr.occurs "RATE" (sfiltername obsdata filtername) = false /\
  PyStr.replace "RATE" "VEGA"
    (PyStr.replace "rate" "vega" (sfiltername obsdata filtername))
  = sfiltername obsdata filtername.
Proof.
  assert (Hlow : PyStr.occurs "rate" (sfiltername obsdata filtername) = false).
  { rewrite sfiltername_unfold. unfold PyStr.replace.
    apply (occurs_replace_scan_other "R" "V" "r" "ATE" "EGA" "ate");
      [reflexivity | reflexivity |].
    apply (occurs_replace_scan_self "r" "v" "ate" "ega"); reflexivity. }
  assert (Hup : PyStr.occurs "RATE" (sfiltername obsdata filtername) = false).
  { rewrite sfiltername_unfold. unfold PyStr.replace.
    apply (occurs_replace_scan_self "R" "V" "ATE" "EGA"); reflexivity. }
  repeat split; try assumption.
  unfold PyStr.replace.
  rewrite (replace_scan_absent "rate" "vega" _ Hlow).
  exact (replace_scan_absent "RATE" "VEGA" _ Hup).
Qed.

(** X2: the translation keeps the length of the alias-resolved name. *)
Theorem X2_translation_keeps_length (obsdata : Observations) (filtername : string) :
  String.length (sfiltername obsdata filtername)
  = String.length (resolve_alias obsdata filtername).
Proof.
  rewrite sfiltername_unfold. unfold PyStr.replace.
  now rewrite !replace_scan_length.
Qed.

(** ** The percentile loop (lines 53-62) *)

Section LoopFacts.
Context `{NumPy}.

Lemma rmapM_total {A B} (f : A -> result B) (l : list A) :
  (forall a, a ∈ l -> exists b, f a = inr b) ->
  exists bs, rmapM f l = inr bs.
Proof.
  induction l as [|a l IH]; intros Hf; [now exists []|].
  destruct (Hf a) as [b Hb]; [left|].
  destruct IH as [bs Hbs]; [intros a' Ha'; apply Hf; now right|].
  exists (b :: bs). simpl. now rewrite Hb, Hbs.
Qed.

Lemma map_replicate {A B} (f : A -> B) (n : nat) (a : A) :
  map f (replicate n a) = replicate n (f a).
Proof. induction n as [|n IH]; simpl; [reflexivity | now rewrite IH]. Qed.

(** One turn of the loop for a filter whose column is in the catalog. *)
Lemma min_mags_loop_cons (obsdata : Observations) (k : nat) (f : string)
    (items : list (nat * string)) (min_mags : list float) :
  sfiltername obsdata f ∈ obs_colnames obsdata ->
  min_mags_loop obsdata ((k, f) :: items) min_mags
  = (let* p := percentile90 obsdata f in
     let* min_mags' := np_setitem min_mags k p in
     min_mags_loop obsdata items min_mags')%result.
Proof.
  intros Hf. cbn [min_mags_loop]. unfold percentile90, valid_mags.
  destruct (obs_getitem obsdata (sfiltername obsdata f)) as [e|col] eqn:Hcol.
  { unfold obs_getitem in Hcol. apply colindex_Some in Hf as [i Hi].
    now rewrite Hi in Hcol. }
  pose proof (kept_column _ _ _ Hcol) as Hkept.
  cbn [rbind] in *.
  destruct (obs_getrows obsdata _) as [e|kept]; [discriminate|].
  cbn [rbind] in *. now rewrite Hkept.
Qed.

(** The loop over a run of filters whose columns are in the catalog,
    followed by whatever comes next. *)
Lemma min_mags_loop_app (obsdata : Observations) (pre rest : list string) :
  (forall f, f ∈ pre -> sfiltername obsdata f ∈ obs_colnames obsdata) ->
  forall (j : nat) (min_mags : list float),
    j + length pre <= length min_mags ->
    min_mags_loop obsdata (enumerate_from j (pre ++ rest)) min_mags
    = (let* ps := rmapM (percentile90 obsdata) pre in
       min_mags_loop obsdata (enumerate_from (j + length pre) rest)
         (take j min_mags ++ ps ++ drop (j + length pre) min_mags))%result.
Proof.
  induction pre as [|f pre IH]; intros Hcols j mm Hlen.
  - cbn [app length rmapM rbind ok]. rewrite Nat.add_0_r.
    now rewrite take_drop.
  - cbn [app enumerate_from length rmapM] in *.
    rewrite min_mags_loop_cons by (apply Hcols; left).
    destruct (percentile90 obsdata f) as [e|p]; [reflexivity|].
    unfold np_setitem.
    destruct (Nat.ltb_spec j (length mm)) as [Hj|Hj]; [|lia].
    cbn [rbind ok].
    rewrite IH; [| intros; apply Hcols; now right | rewrite length_insert; lia].
    destruct (rmapM (percentile90 obsdata) pre) as [e|ps]; [reflexivity|].
    cbn [rbind ok].
    destruct (lookup_lt_is_Some_2 mm j Hj) as [x Hx].
    rewrite (take_S_r (<[j:=p]> mm) j p) by (now rewrite list_lookup_insert_eq).
    rewrite take_insert_ge by lia.
    rewrite drop_insert_lt by lia.
    rewrite <- app_assoc. simpl.
    now replace (S (j + length pre)) with (j + S (length pre)) by lia.
Qed.

End LoopFacts.

(** X3: selecting the rows at the indices [np.where] found and reading the
    column again (lines 58-59) never goes out of range; it yields the
    column's entries below 99.0, in row order, so the sample holds no
    sentinel and no NaN. *)
Theorem X3_kept_rows_are_the_valid_magnitudes (obsdata : Observations)
    (name : string) (col : list float) :
  obs_getitem obsdata name = inr col ->
  exists kept : Observations,
    obs_getrows obsdata (np_where (np_less col 99.0%float)) = inr kept /\
    obs_getitem kept name = inr (List.filter valid col) /\
    Forall (fun m => PrimFloat.ltb m 99.0%float = true) (List.filter valid col) /\
    length (List.filter valid col) <= length col.
Proof.
  intros Hcol. pose proof (kept_column _ _ _ Hcol) as Hkept.
  destruct (obs_getrows obsdata _) as [e|kept]; [discriminate|].
  exists kept. repeat split; [exact Hkept | | apply List.filter_length_le].
  apply Forall_forall. intros m Hm%list_elem_of_In.
  now apply List.filter_In in Hm as [_ Hm].
Qed.


(** X5: with a scalar cut, a catalog that lists more filters than the
    configuration makes the resolver raise [IndexError]: the array of
    minima has one slot per configured filter and the loop runs over the
    catalog's filters. *)
Theorem X5_extra_catalog_filter_raises_IndexError `{NumPy} (dm : datamodel)
    (obsdata : Observations) (c : float) :
  ast_maglimit dm = [c] ->
  length (filters dm) < length (obs_filters obsdata) ->
  (forall g, g ∈ obs_filters obsdata ->
             sfiltername obsdata g ∈ obs_colnames obsdata) ->
  (forall g, g ∈ obs_filters obsdata -> exists p, percentile90 obsdata g = inr p) ->
  construct_magnitude_cuts dm obsdata = inl IndexError.
Proof.
  intros Hc Hlen Hcols Hpct.
  set (n := length (filters dm)) in *.
  destruct (drop n (obs_filters obsdata)) as [|f post] eqn:Hdrop.
  { apply (f_equal length) in Hdrop. rewrite length_drop in Hdrop. simpl in Hdrop. lia. }
  assert (Hsplit : obs_filters obsdata = take n (obs_filters obsdata) ++ f :: post)
    by (now rewrite <- Hdrop, take_drop).
  assert (Hpre : length (take n (obs_filters obsdata)) = n)
    by (rewrite length_take; lia).
  assert (Hin : forall g, g ∈ take n (obs_filters obsdata) -> g ∈ obs_filters obsdata).
  { intros g Hg. rewrite Hsplit. apply elem_of_app. now left. }
  assert (Hf : f ∈ obs_filters obsdata).
  { rewrite Hsplit. apply elem_of_app. right. left. }
  destruct (rmapM_total (percentile90 obsdata) (take n (obs_filters obsdata)))
    as [ps Hps]; [intros g Hg; apply Hpct, Hin, Hg|].
  unfold construct_magnitude_cuts, enumerate. rewrite Hc. cbn [length Nat.eqb].
  rewrite Hsplit.
  rewrite min_mags_loop_app;
    [| intros g Hg; apply Hcols, Hin, Hg
     | unfold np_zeros; rewrite length_replicate; fold n; lia].
  rewrite Hps. cbn [rbind enumerate_from].
  rewrite min_mags_loop_cons by (apply Hcols, Hf).
  destruct (Hpct f Hf) as [p Hp]. rewrite Hp. cbn [rbind].
  apply rmapM_length in Hps.
  unfold np_setitem. rewrite !length_app, take_0, length_drop.
  unfold np_zeros. rewrite length_replicate, Hps, Hpre. fold n.
  cbn [length Nat.add]. replace (n + (n - n)) with n by lia.
  now rewrite Nat.ltb_irrefl.
Qed.

(** X6: with a scalar cut [c], a catalog that lists only the first [m] of
    the configured filters gives a cut vector whose first [m] entries are
    the percentiles plus [c] and whose remaining entries are [0.0 + c]: the
    slots the loop never reaches keep the zero [np.zeros] put there. *)
Theorem X6_unlisted_filters_get_the_bare_offset `{NumPy} (dm : datamodel)
    (obsdata : Observations) (c : float) (ps : list float) :
  ast_maglimit dm = [c] ->
  length (obs_filters obsdata) <= length (filters dm) ->
  (forall g, g ∈ obs_filters obsdata ->
             sfiltername obsdata g ∈ obs_colnames obsdata) ->
  Forall2 (fun g p => percentile90 obsdata g = inr p) (obs_filters obsdata) ps ->
  construct_magnitude_cuts dm obsdata
  = inr (map (fun p => PrimFloat.add p c) ps
         ++ replicate (length (filters dm) - length (obs_filters obsdata))
              (PrimFloat.add 0%float c)).
Proof.
  intros Hc Hlen Hcols Hps.
  unfold construct_magnitude_cuts, enumerate. rewrite Hc. cbn [length Nat.eqb].
  rewrite min_mags_loop_spec;
    [| assumption | unfold np_zeros; rewrite length_replicate; lia].
  pose proof (Forall2_length _ _ _ Hps) as Hlen_ps.
  apply rmapM_inr in Hps. rewrite Hps. cbn [rbind ok np_add].
  unfold np_zeros. rewrite take_0, drop_replicate. cbn [app Nat.add].
  now rewrite map_app, map_replicate.
Qed.

(** ** Artifact paths (lines 72-73, 84-85, 129) *)

Section PathFacts.

Lemma str_app_inv_length (a b c d : string) :
  a +:+ b = c +:+ d -> String.length a = String.length c -> a = c.
Proof.
  revert c; induction a as [|x a IH]; intros [|y c]; simpl; try discriminate;
    [reflexivity|].
  intros [= -> Heq] [= Hlen]. f_equal. now apply IH.
Qed.

(** A path built from the project name determines the project name. *)
Lemma project_path_inj (p q suffix : string) :
  "./" +:+ p +:+ "/" +:+ p +:+ suffix = "./" +:+ q +:+ "/" +:+ q +:+ suffix ->
  p = q.
Proof.
  intros Heq. apply (inj (String.append "./")) in Heq.
  apply (str_app_inv_length _ _ _ _ Heq).
  apply (f_equal String.length) in Heq.
  rewrite !str_app_length in Heq. simpl in Heq. lia.
Qed.

End PathFacts.

(** X7: for every project name the five paths of the run (SED list,
    parameter file, flux-bin file, SED grid, manifest) are pairwise
    different, so no output is ever directed at the SED grid or at another
    output. *)
Theorem X7_artifact_paths_distinct (dm : datamodel) :
  NoDup [outfile_seds dm; outfile_params dm; bins_outfile dm;
         sedgrid_path dm; outfile dm].
Proof.
  unfold outfile_seds, outfile_params, bins_outfile, sedgrid_path, outfile.
  repeat (apply NoDup_cons; split);
    rewrite ?not_elem_of_cons; repeat split;
    try apply not_elem_of_nil; try apply NoDup_nil_2;
    intros Heq; do 4 apply (inj (String.append _)) in Heq; discriminate.
Qed.

(** X8: two configurations with different project names share none of
    their output paths of the same kind. *)
Theorem X8_projects_do_not_share_outputs (dm1 dm2 : datamodel) :
  project dm1 <> project dm2 ->
  outfile_seds dm1 <> outfile_seds dm2 /\
  outfile_params dm1 <> outfile_params dm2 /\
  bins_outfile dm1 <> bins_outfile dm2 /\
  outfile dm1 <> outfile dm2.
Proof.
  intros Hne. repeat split; intros Heq; apply Hne;
    eapply project_path_inj, Heq.
Qed.

(** ** Runs: what else every run shows *)

Section RunFacts.

(** A program followed by a continuation runs as the program and then,
    if it returned, the continuation from where it left the world. *)
Lemma exec_bind {A B W : Type} (h : handler W) (p : prog A) (f : A -> prog B)
    (w : W) :
  exec h (bind p f) w
  = match outcome (exec h p w) with
    | inl e => {| trace := trace (exec h p w);
                  outcome := inl e;
                  world := world (exec h p w) |}
    | inr a =>
        let r := exec h (f a) (world (exec h p w)) in
        {| trace := trace (exec h p w) ++ trace r;
           outcome := outcome r;
           world := world r |}
    end.
Proof.
  revert w; induction p as [a|e|line k IH|X c k IH]; intros w; cbn [bind exec].
  - cbn. now destruct (exec h (f a) w).
  - reflexivity.
  - rewrite IH. cbn [trace outcome world].
    now destruct (outcome (exec h k w)).
  - destruct (h X c w) as [[e|x] w']; [reflexivity|].
    rewrite IH. cbn [trace outcome world].
    now destruct (outcome (exec h (k x) w')).
Qed.

End RunFacts.

(** X9: with the flux-bin method selected and the SED list absent, the
    stratified sampler is called exactly once, with the grid path, the
    configured filters, the cut vector stage 1 resolved for the catalog the
    loader returned, the three sizing parameters and the three output paths
    of the project; nothing is read from disk and the random sampler is not
    called. *)
Theorem X9_flux_bin_branch_call `{NumPy} {W : Type}
    (h : handler W) (w : W) (dm : datamodel) :
  let r := exec h (make_ast_inputs true dm) w in
  isfile_replies (trace r) = [(outfile_seds dm, false)] ->
  exists (obsdata : Observations) (cuts : list float),
    loaded_catalogs (trace r) = [obsdata] /\
    construct_magnitude_cuts dm obsdata = inr cuts /\
    toothpick_calls (trace r)
    = [{| tp_modelsedgrid_filename := sedgrid_path dm;
          tp_filters := filters dm;
          tp_mag_cuts := cuts;
          tp_Nfilter := ast_bands_above_maglimit dm;
          tp_N_fluxes := ast_n_flux_bins dm;
          tp_min_N_per_flux := ast_n_per_flux_bin dm;
          tp_outfile := outfile_seds dm;
          tp_outfile_params := outfile_params dm;
          tp_bins_outfile := bins_outfile dm |}] /\
    table_reads (trace r) = [] /\
    pick_models_calls (trace r) = [].
Proof.
  run_cases h; cbn [loaded_catalogs]; intros Hfile; try discriminate;
    do 2 eexists; repeat split; eassumption.
Qed.

(** The further readers, evaluated on a log that has been settled. *)
Ltac read_log :=
  cbn [loaded_catalogs chosen_sets call_names call_name raised
       last_raised last] in *.

(** X10: with positions switched off, no run calls a position sampler or
    announces the position stage, and a run in which stage 2 obtained its
    table returns normally. *)
Theorem X10_positions_disabled `{NumPy} {W : Type}
    (h : handler W) (w : W) (flux_bin_method : bool) (dm : datamodel) :
  ast_with_positions dm = false ->
  let r := exec h (make_ast_inputs flux_bin_method dm) w in
  map_calls (trace r) = [] /\
  xy_calls (trace r) = [] /\
  ("Assigning positions to artifical stars" ∉ printed (trace r)) /\
  (chosen_sets (trace r) = [] \/ outcome r = ok tt).
Proof.
  intros Hpos. run_cases h; read_log; try congruence;
    repeat split; auto;
    rewrite ?not_elem_of_cons; repeat split;
    try apply not_elem_of_nil; discriminate.
Qed.

(** X11: with positions enabled and only a background map configured, the
    position stage is the one call of the map-based sampler on the
    background table, with the configured bin count, coordinate boundary,
    reference image and manifest path, and without the [region_from_filters]
    keyword the source-density branch passes. *)
Theorem X11_background_branch_call `{NumPy} (dm : datamodel) (background : string) :
  ast_with_positions dm = true ->
  ast_source_density_table dm = None ->
  ast_background_table dm = Some background ->
  (forall obsdata chosen_seds,
     assign_positions dm obsdata chosen_seds
     = (print "Assigning positions to artifical stars" ;;
        invoke (pick_positions_from_map
                  {| map_catalog := obsdata;
                     map_chosen_seds := chosen_seds;
                     map_table := background;
                     map_N_bins := ast_N_bins dm;
                     map_realization_per_model := ast_realization_per_model dm;
                     map_outfile := outfile dm;
                     map_refimage := ast_reference_image dm;
                     map_refimage_hdu := 1;
                     map_wcs_origin := 1;
                     map_Nrealize := 1;
                     map_set_coord_boundary := ast_coord_boundary dm;
                     map_region_from_filters := None |}))%prog) /\
  (forall (W : Type) (h : handler W) (w : W) (flux_bin_method : bool),
     let r := exec h (make_ast_inputs flux_bin_method dm) w in
     xy_calls (trace r) = [] /\
     Forall (fun a => map_table a = background /\
                      map_region_from_filters a = None /\
                      map_outfile a = outfile dm)
            (map_calls (trace r)) /\
     Forall (fun reply => outcome r = reply) (map_replies (trace r))).
Proof.
  intros Hpos Hsd Hbg. split.
  - intros obsdata chosen_seds. unfold assign_positions.
    now rewrite Hpos, Hsd, Hbg.
  - intros W h w flux_bin_method.
    run_cases h; try congruence; repeat split; repeat constructor;
      cbn; congruence.
Qed.

(** X12: a run never goes on after a collaborator has raised.  A run that
    returns has seen no collaborator raise; a run that ends with an
    exception either has it from the one collaborator that raised, which is
    the last one called, or no collaborator raised and the exception is
    the resolver's on the loaded catalog or the [UnboundLocalError] of the
    random branch. *)
Theorem X12_first_failure_ends_the_run `{NumPy} {W : Type}
    (h : handler W) (w : W) (flux_bin_method : bool) (dm : datamodel) :
  let r := exec h (make_ast_inputs flux_bin_method dm) w in
  match outcome r with
  | inr _ => raised (trace r) = []
  | inl e =>
      (raised (trace r) = [e] /\ last_raised (trace r) = Some e) \/
      (raised (trace r) = [] /\
       (e = UnboundLocalError "modelsedgrid_filename" \/
        exists obsdata, loaded_catalogs (trace r) = [obsdata] /\
                        construct_magnitude_cuts dm obsdata = inl e))
  end.
Proof.
  run_cases h; read_log; cbn; auto; right; split; auto; right; eauto.
Qed.

(** X13: the collaborators are called in one fixed order: validation, the
    catalog loader, the existence check, then one of the stratified
    sampler and the table reader, then one of the two position samplers; a
    run makes an initial part of such a sequence, so at most five calls. *)
Theorem X13_call_order `{NumPy} {W : Type}
    (h : handler W) (w : W) (flux_bin_method : bool) (dm : datamodel) :
  let r := exec h (make_ast_inputs flux_bin_method dm) w in
  exists selection position : string,
    selection ∈ ["pick_models_toothpick_style"; "Table.read"] /\
    position ∈ ["make_ast_xy_list.pick_positions_from_map";
                "make_ast_xy_list.pick_positions"] /\
    call_names (trace r)
      `prefix_of` ["verify_params.verify_input_format"; "datamodel.get_obscat";
                   "os.path.isfile"; selection; position].
Proof.
  run_cases h; read_log;
    first
      [ exists "pick_models_toothpick_style",
               "make_ast_xy_list.pick_positions_from_map";
        split; [set_solver|]; split; [set_solver|]; eexists; reflexivity
      | exists "pick_models_toothpick_style",
               "make_ast_xy_list.pick_positions";
        split; [set_solver|]; split; [set_solver|]; eexists; reflexivity
      | exists "Table.read",
               "make_ast_xy_list.pick_positions_from_map";
        split; [set_solver|]; split; [set_solver|]; eexists; reflexivity
      | exists "Table.read",
               "make_ast_xy_list.pick_positions";
        split; [set_solver|]; split; [set_solver|]; eexists; reflexivity ].
Qed.

(** X14: the guard at line 76 read the other way round: the table reader
    is called only after the existence check answered True, and the
    stratified sampler only after it answered False with the flux-bin
    method selected. *)
Theorem X14_calls_imply_the_guard `{NumPy} {W : Type}
    (h : handler W) (w : W) (flux_bin_method : bool) (dm : datamodel) :
  let r := exec h (make_ast_inputs flux_bin_method dm) w in
  (table_reads (trace r) = [] \/
   isfile_replies (trace r) = [(outfile_seds dm, true)]) /\
  (toothpick_calls (trace r) = [] \/
   isfile_replies (trace r) = [(outfile_seds dm, false)] /\
   flux_bin_method = true).
Proof. run_cases h; auto. Qed.

(** X15: whichever position sampler a run calls receives the catalog the
    loader returned in that run, and the map-based sampler receives the
    table stage 2 obtained in that run. *)
Theorem X15_position_sampler_inputs `{NumPy} {W : Type}
    (h : handler W) (w : W) (flux_bin_method : bool) (dm : datamodel) :
  let r := exec h (make_ast_inputs flux_bin_method dm) w in
  Forall (fun a => loaded_catalogs (trace r) = [map_catalog a] /\
                   chosen_sets (trace r) = [map_chosen_seds a])
         (map_calls (trace r)) /\
  Forall (fun a => loaded_catalogs (trace r) = [xy_catalog a]) (xy_calls (trace r)).
Proof. run_cases h; read_log; repeat split; repeat constructor. Qed.

(** X16: the script runs the pipeline first, with the flux-bin method
    unless the flag's value is 0, and prints the help afterwards exactly
    when the value is 0 and the pipeline returned; it adds no call and
    changes no outcome. *)
Theorem X16_main_runs_then_prints_help `{NumPy} {W : Type}
    (h : handler W) (w : W) (help : string) (args : Namespace) (dm : datamodel) :
  let p := exec h (make_ast_inputs
                     (negb (Z.eqb (args_flux_bin_method args) 0)) dm) w in
  let r := exec h (main help args dm) w in
  trace r
  = trace p ++ match outcome p with
               | inr _ => if Z.eqb (args_flux_bin_method args) 0
                          then [Printed help] else []
               | inl _ => []
               end /\
  outcome r = outcome p /\
  world r = world p.
Proof.
  cbv zeta. unfold main. rewrite exec_bind.
  unfold py_any, vars_values, py_bool. cbn [existsb orb].
  rewrite orb_false_r, negb_involutive.
  destruct (exec h (make_ast_inputs _ dm) w) as [t [e|[]] w'];
    cbn [trace outcome world];
    destruct (Z.eqb (args_flux_bin_method args) 0); cbn;
    rewrite ?app_nil_r; auto.
Qed.

(** X17: with the flag absent, or given any value other than 0, the script
    is the flux-bin run of the pipeline and prints no help. *)
Theorem X17_main_without_zero_flag `{NumPy} {W : Type}
    (h : handler W) (w : W) (help : string) (args : Namespace) (dm : datamodel) :
  args_flux_bin_method args <> 0%Z ->
  exec h (main help args dm) w = exec h (make_ast_inputs true dm) w /\
  exec h (main help (parse_args None) dm) w = exec h (make_ast_inputs true dm) w.
Proof.
  intros Hne.
  assert (Hgen : forall a, args_flux_bin_method a <> 0%Z ->
            exec h (main help a dm) w = exec h (make_ast_inputs true dm) w).
  { intros a Ha. unfold main. rewrite exec_bind.
    unfold py_any, vars_values, py_bool. cbn [existsb orb].
    apply Z.eqb_neq in Ha. rewrite Ha. cbn [negb orb].
    destruct (exec h (make_ast_inputs true dm) w) as [t [e|[]] w'];
      cbn [trace outcome world]; [reflexivity|].
    cbn. now rewrite app_nil_r. }
  split; apply Hgen; [assumption | discriminate].
Qed.

(** X18: the selection method matters only when the existence check of the
    SED list answers False: in every other case the run with the random
    method selected is, call for call, the run with the flux-bin method. *)
Theorem X18_method_matters_only_without_sed_list `{NumPy} {W : Type}
    (h : handler W) (w : W) (dm : datamodel) :
  exec h (make_ast_inputs false dm) w = exec h (make_ast_inputs true dm) w \/
  isfile_replies (trace (exec h (make_ast_inputs true dm) w))
  = [(outfile_seds dm, false)].
Proof. run_cases h; auto. Qed.

Section ExtrasOnInputs.
Import Inputs.
#[local] Existing Instance Env.numpy.

(** The F475W column of the two-filter catalog. *)
Lemma X3_witness :
  exists kept : Observations,
    obs_getrows (loaded cat_two two_filters)
      (np_where (np_less [20.0; 99.0; 24.0]%float 99.0%float)) = inr kept /\
    obs_getitem kept "F475W_VEGA" = inr (List.filter valid [20.0; 99.0; 24.0]%float) /\
    Forall (fun m => PrimFloat.ltb m 99.0%float = true)
           (List.filter valid [20.0; 99.0; 24.0]%float) /\
    length (List.filter valid [20.0; 99.0; 24.0]%float)
    <= length [20.0; 99.0; 24.0]%float.
Proof.
  apply (X3_kept_rows_are_the_valid_magnitudes
           (loaded cat_two two_filters) "F475W_VEGA").
  vm_compute. reflexivity.
Defined.


(** One configured filter, a catalog loaded for two. *)
Lemma X5_witness :
  construct_magnitude_cuts dm_one (loaded cat_two two_filters) = inl IndexError.
Proof.
  apply (X5_extra_catalog_filter_raises_IndexError dm_one
           (loaded cat_two two_filters) 28.0%float).
  - reflexivity.
  - vm_compute. lia.
  - intros g Hg. apply list_elem_of_In in Hg.
    destruct Hg as [<-|[<-|[]]]; apply (bool_decide_unpack _); vm_compute; exact I.
  - intros g Hg. apply list_elem_of_In in Hg.
    destruct Hg as [<-|[<-|[]]]; eexists; vm_compute; reflexivity.
Defined.

(** Two configured filters, a catalog loaded for the first only. *)
Lemma X6_witness :
  construct_magnitude_cuts dm_scalar (loaded cat_two ["F475W_RATE"])
  = inr [PrimFloat.add (Env.linear_percentile 20.0 [24.0] 90.0)%float 1.0%float;
         PrimFloat.add 0%float 1.0%float].
Proof.
  apply (X6_unlisted_filters_get_the_bare_offset dm_scalar
           (loaded cat_two ["F475W_RATE"]) 1.0%float
           [Env.linear_percentile 20.0 [24.0] 90.0]%float).
  - reflexivity.
  - vm_compute. lia.
  - intros g Hg. apply list_elem_of_In in Hg. destruct Hg as [<-|[]].
    apply (bool_decide_unpack _). vm_compute. exact I.
  - constructor; [vm_compute; reflexivity | constructor].
Defined.

(** The projects [demo] and [other]. *)
Lemma X8_witness :
  outfile_seds dm_scalar <> outfile_seds dm_other_project /\
  outfile_params dm_scalar <> outfile_params dm_other_project /\
  bins_outfile dm_scalar <> bins_outfile dm_other_project /\
  outfile dm_scalar <> outfile dm_other_project.
Proof.
  apply (X8_projects_do_not_share_outputs dm_scalar dm_other_project).
  discriminate.
Defined.

(** An empty project directory and the flux-bin method. *)
Lemma X9_witness :
  let r := exec env (make_ast_inputs true dm_catalog) fresh_disk in
  exists (obsdata : Observations) (cuts : list float),
    loaded_catalogs (trace r) = [obsdata] /\
    construct_magnitude_cuts dm_catalog obsdata = inr cuts /\
    toothpick_calls (trace r)
    = [{| tp_modelsedgrid_filename := sedgrid_path dm_catalog;
          tp_filters := filters dm_catalog;
          tp_mag_cuts := cuts;
          tp_Nfilter := ast_bands_above_maglimit dm_catalog;
          tp_N_fluxes := ast_n_flux_bins dm_catalog;
          tp_min_N_per_flux := ast_n_per_flux_bin dm_catalog;
          tp_outfile := outfile_seds dm_catalog;
          tp_outfile_params := outfile_params dm_catalog;
          tp_bins_outfile := bins_outfile dm_catalog |}] /\
    table_reads (trace r) = [] /\
    pick_models_calls (trace r) = [].
Proof.
  apply (X9_flux_bin_branch_call env fresh_disk dm_catalog).
  vm_compute. reflexivity.
Defined.

(** The sampler call of that run, in full. *)
Example flux_bin_run :
  let r := exec env (make_ast_inputs true dm_catalog) fresh_disk in
  toothpick_calls (trace r)
  = [{| tp_modelsedgrid_filename := "./demo/demo_seds.grid.hd5";
        tp_filters := ["F475W_RATE"; "F814W_RATE"];
        tp_mag_cuts := [27.0; 26.0]%float;
        tp_Nfilter := 3;
        tp_N_fluxes := 40;
        tp_min_N_per_flux := 50;
        tp_outfile := "./demo/demo_inputAST_seds.txt";
        tp_outfile_params := "./demo/demo_ASTparams.fits";
        tp_bins_outfile := "./demo/demo_ASTfluxbins.txt" |}].
Proof. vm_compute. reflexivity. Qed.

(** Positions switched off, an empty project directory. *)
Lemma X10_witness :
  let r := exec env (make_ast_inputs true dm_no_positions) fresh_disk in
  map_calls (trace r) = [] /\
  xy_calls (trace r) = [] /\
  ("Assigning positions to artifical stars" ∉ printed (trace r)) /\
  (chosen_sets (trace r) = [] \/ outcome r = ok tt).
Proof.
  apply (X10_positions_disabled env fresh_disk true dm_no_positions).
  reflexivity.
Defined.

(** Only the background map configured. *)
Lemma X11_witness :
  let r := exec env (make_ast_inputs true dm_background) fresh_disk in
  xy_calls (trace r) = [] /\
  Forall (fun a => map_table a = "demo_background_map.hd5" /\
                   map_region_from_filters a = None /\
                   map_outfile a = outfile dm_background)
         (map_calls (trace r)) /\
  Forall (fun reply => outcome r = reply) (map_replies (trace r)).
Proof.
  apply (X11_background_branch_call dm_background "demo_background_map.hd5");
    reflexivity.
Defined.

(** The flag given as 5, and the flag absent. *)
Lemma X17_witness :
  exec env (main "usage" {| args_flux_bin_method := 5 |} dm_catalog) fresh_disk
  = exec env (make_ast_inputs true dm_catalog) fresh_disk /\
  exec env (main "usage" (parse_args None) dm_catalog) fresh_disk
  = exec env (make_ast_inputs true dm_catalog) fresh_disk.
Proof.
  apply (X17_main_without_zero_flag env fresh_disk "usage"
           {| args_flux_bin_method := 5 |} dm_catalog).
  discriminate.
Defined.

(** The flag given as 0 with the SED list on disk: the pipeline runs with
    the random method selected, reads the list, and the help comes last. *)
Example main_zero_flag_run :
  let r := exec env (main "usage" (parse_args (Some 0%Z)) dm_both_maps) seds_on_disk in
  printed (trace r)
  = ["Reading existing AST SEDs"; "Assigning positions to artifical stars"; "usage"] /\
  outcome r = ok tt.
Proof. vm_compute. auto. Qed.

(** The flag given as 0 on an empty project directory: the run stops in
    the random branch and no help is printed. *)
Example main_zero_flag_fresh_project :
  let r := exec env (main "usage" (parse_args (Some 0%Z)) dm_both_maps) fresh_disk in
  printed (trace r) = ["Selecting SEDs for ASTs"] /\
  outcome r = raise (UnboundLocalError "modelsedgrid_filename").
Proof. vm_compute. auto. Qed.

End ExtrasOnInputs.
